(** * vies-query: the date rendering of [internal/output]

    A shallow embedding of the calendar arithmetic and of the rendering
    dispatch of the Go package [output] (FormatRequestDate and its helpers),
    together with the properties of the calendar conversions.

    Go's [int] is taken at its 64-bit width: every arithmetic operation is
    computed in [Z] and wrapped back into the signed 64-bit range.  Go's [/]
    truncates toward zero ([Z.quot]) and [%] takes the sign of the dividend
    ([Z.rem]). *)

From Stdlib Require Import ZArith List String Ascii Bool Lia DecimalString.
From Stdlib Require Import PreOmega.
Import ListNotations.

Local Open Scope Z_scope.

(** ** Go's 64-bit signed integers *)

Module GoInt.

Definition min_int : Z := - 2 ^ 63.
Definition max_int : Z := 2 ^ 63 - 1.

Definition in_range (z : Z) : Prop := min_int <= z <= max_int.

(** Two's-complement wrap-around of a mathematical integer. *)
Definition wrap (z : Z) : Z := (z + 2 ^ 63) mod 2 ^ 64 - 2 ^ 63.

Definition add (a b : Z) : Z := wrap (a + b).
Definition sub (a b : Z) : Z := wrap (a - b).
Definition mul (a b : Z) : Z := wrap (a * b).
Definition div (a b : Z) : Z := wrap (Z.quot a b).
Definition rem (a b : Z) : Z := wrap (Z.rem a b).

End GoInt.

(** The wrapped operations are written [+!], [-!], [*!], [/!] and [%!]. *)
Infix "+!" := GoInt.add (at level 50, left associativity).
Infix "-!" := GoInt.sub (at level 50, left associativity).
Infix "*!" := GoInt.mul (at level 40, left associativity).
Infix "/!" := GoInt.div (at level 40, left associativity).
Infix "%!" := GoInt.rem (at level 40, left associativity).

(** ** Calendar arithmetic of the package *)

(** [gregorianToJDN]: Gregorian date to Julian Day Number. *)
Definition gregorianToJDN (y m d : Z) : Z :=
  let a := (14 -! m) /! 12 in
  let y2 := y +! 4800 -! a in
  let m2 := m +! 12 *! a -! 3 in
  d +! (153 *! m2 +! 2) /! 5 +! 365 *! y2 +! y2 /! 4 -! y2 /! 100 +! y2 /! 400 -! 32045.

(** [jdnToJulian]: Julian Day Number to a date of the Julian calendar. *)
Definition jdnToJulian (jdn : Z) : Z * Z * Z :=
  let c := jdn +! 32082 in
  let d := (4 *! c +! 3) /! 1461 in
  let e := c -! (1461 *! d) /! 4 in
  let m := (5 *! e +! 2) /! 153 in
  let day := e -! (153 *! m +! 2) /! 5 +! 1 in
  let month := m +! 3 -! 12 *! (m /! 10) in
  let year := d -! 4800 +! m /! 10 in
  (year, month, day).

(** [julianFromGregorian]: Julian calendar conversion via the JDN. *)
Definition julianFromGregorian (y m d : Z) : Z * Z * Z :=
  jdnToJulian (gregorianToJDN y m d).

(** [afterOrEqual]: lexicographic comparison of two dates. *)
Definition afterOrEqual (y m d y2 m2 d2 : Z) : bool :=
  if negb (y =? y2) then y >? y2
  else if negb (m =? m2) then m >? m2
  else d >=? d2.

(** The era definitions of [japaneseEra], by inclusive start date. *)
Record eraDef : Type := mkEra { era_name : string; era_y : Z; era_m : Z; era_d : Z }.

Definition eras : list eraDef :=
  [ mkEra "Reiwa" 2019 5 1;
    mkEra "Heisei" 1989 1 8;
    mkEra "Showa" 1926 12 25;
    mkEra "Taisho" 1912 7 30;
    mkEra "Meiji" 1868 10 23 ].

(** The [for _, e := range eras] loop of [japaneseEra]: the first era the
    date is after or equal to, and the sentinel after the last one. *)
Fixpoint japaneseEra_scan (es : list eraDef) (y m d : Z) : string * Z :=
  match es with
  | [] => ("Pre-Meiji"%string, y)
  | e :: rest =>
      if afterOrEqual y m d (era_y e) (era_m e) (era_d e)
      then (era_name e, y -! era_y e +! 1)
      else japaneseEra_scan rest y m d
  end.

Definition japaneseEra (y m d : Z) : string * Z := japaneseEra_scan eras y m d.

(** [islamicCivilFromGregorian]: tabular (civil) Hijri date via the JDN. *)
Definition islamicCivilFromGregorian (y m d : Z) : Z * Z * Z :=
  let jdn := gregorianToJDN y m d in
  let l := jdn -! 1948440 +! 10632 in
  let n := (l -! 1) /! 10631 in
  let l := l -! 10631 *! n +! 354 in
  let j := ((10985 -! l) /! 5316) *! ((50 *! l) /! 17719) in
  let j := j +! (l /! 5670) *! ((43 *! l) /! 15238) in
  let l := l -! ((30 -! j) /! 15) *! ((17719 *! j) /! 50) -! (j /! 16) *! ((15238 *! j) /! 43) +! 29 in
  let im := (24 *! l) /! 709 in
  let id := l -! (709 *! im) /! 24 in
  let iy := 30 *! n +! j -! 30 in
  (iy, im, id).

(** [hebrewYearApprox]: the Hebrew year, switching on September 20. *)
Definition hebrewYearApprox (gy gm gd : Z) : Z :=
  if gm >? 9 then gy +! 3761
  else if gm <? 9 then gy +! 3760
  else if gd >=? 20 then gy +! 3761
  else gy +! 3760.

(** [ordinalSuffix]: the English ordinal suffix of a day number. *)
Definition ordinalSuffix (day : Z) : string :=
  let r := day %! 100 in
  if (r =? 11) || (r =? 12) || (r =? 13) then "th"%string
  else
    let r := day %! 10 in
    if r =? 1 then "st"%string
    else if r =? 2 then "nd"%string
    else if r =? 3 then "rd"%string
    else "th"%string.

(** [monthName]: English month names, empty outside 1..12. *)
Definition monthName (m : Z) : string :=
  match m with
  | 1 => "January" | 2 => "February" | 3 => "March" | 4 => "April"
  | 5 => "May" | 6 => "June" | 7 => "July" | 8 => "August"
  | 9 => "September" | 10 => "October" | 11 => "November" | 12 => "December"
  | _ => ""
  end%string.

(** [islamicMonthName]: Hijri month names, empty outside 1..12. *)
Definition islamicMonthName (m : Z) : string :=
  match m with
  | 1 => "Muharram" | 2 => "Safar" | 3 => "Rabi' al-awwal" | 4 => "Rabi' al-thani"
  | 5 => "Jumada al-awwal" | 6 => "Jumada al-thani" | 7 => "Rajab" | 8 => "Sha'ban"
  | 9 => "Ramadan" | 10 => "Shawwal" | 11 => "Dhu al-Qi'dah" | 12 => "Dhu al-Hijjah"
  | _ => ""
  end%string.

(** ** The part of Go's [time] package the rendering relies on

    A [time.Time] is an instant together with the offset of its location.
    Every calendar accessor ([Year], [Month], [Day], [Weekday], [ISOWeek],
    [Format]) is computed from the local day count of that instant, in the
    proleptic Gregorian calendar, as the package documents.  The package is
    not part of the repository; this is the model the rendering is read
    against.  Seconds and days are unbounded integers here, where the
    package keeps 64-bit counters: [localDays], [Date] and [Unix] are the
    values of the package for the instants within 2^62 seconds of 1970,
    and wrap around in the package far outside of them. *)

Module GoTime.

Record Time : Type := mkTime {
  unixSec : Z;      (* seconds since 1970-01-01T00:00:00Z *)
  nsec : Z;         (* nanoseconds within the second *)
  zoneOffset : Z    (* seconds east of UTC of the location *)
}.

(** Local days since 1970-01-01 and local seconds within the day. *)
Definition localDays (t : Time) : Z := (unixSec t + zoneOffset t) / 86400.
Definition secOfDay (t : Time) : Z := (unixSec t + zoneOffset t) mod 86400.

(** Leap years, with Go's remainder. *)
Definition isLeap (year : Z) : bool :=
  (Z.rem year 4 =? 0) && (negb (Z.rem year 100 =? 0) || (Z.rem year 400 =? 0)).

(** [daysBefore]: the days of a non-leap year before the end of month [m]. *)
Definition daysBefore (m : Z) : Z :=
  match m with
  | 0 => 0 | 1 => 31 | 2 => 59 | 3 => 90 | 4 => 120 | 5 => 151 | 6 => 181
  | 7 => 212 | 8 => 243 | 9 => 273 | 10 => 304 | 11 => 334 | _ => 365
  end.

(** Days from 0001-01-01 to 1970-01-01. *)
Definition unixEpochDays : Z := 719162.

(** Days from 0001-01-01 to the first day of [year]: whole cycles of
    400, 100 and 4 years, then single years. *)
Definition daysSinceEpoch (year : Z) : Z :=
  let y := year - 1 in
  let n400 := y / 400 in
  let y := y - 400 * n400 in
  let n100 := y / 100 in
  let y := y - 100 * n100 in
  let n4 := y / 4 in
  let y := y - 4 * n4 in
  146097 * n400 + 36524 * n100 + 1461 * n4 + 365 * y.

(** Days since 1970-01-01 of a date whose month is in 1..12; the day may
    run over the end of the month. *)
Definition daysFromCivil (year month day : Z) : Z :=
  daysSinceEpoch year + daysBefore (month - 1)
  + (if isLeap year && (3 <=? month) then 1 else 0) + (day - 1) - unixEpochDays.

(** The year and the day of the year (from 0) of a day count: cut off the
    400-year, 100-year, 4-year and 1-year cycles; the last 100-year cycle
    and the last year of a 4-year cycle are one day longer. *)
Definition yearAndYday (z : Z) : Z * Z :=
  let d := z + unixEpochDays in
  let n400 := d / 146097 in
  let d := d - 146097 * n400 in
  let n100 := d / 36524 in
  let n100 := n100 - n100 / 4 in
  let d := d - 36524 * n100 in
  let n4 := d / 1461 in
  let d := d - 1461 * n4 in
  let n1 := d / 365 in
  let n1 := n1 - n1 / 4 in
  let d := d - 365 * n1 in
  (1 + 400 * n400 + 100 * n100 + 4 * n4 + n1, d).

(** Month and day of a day of the year: the leap day is taken out, the
    month is estimated as if every month had 31 days and adjusted. *)
Definition monthAndDay (leap : bool) (yday : Z) : Z * Z :=
  if leap && (yday =? 31 + 29 - 1) then (2, 29)
  else
    let day := if leap && (yday >? 31 + 29 - 1) then yday - 1 else yday in
    let month := day / 31 in
    let end_ := daysBefore (month + 1) in
    if day >=? end_ then (month + 2, day - end_ + 1)
    else (month + 1, day - daysBefore month + 1).

Definition civilFromDays (z : Z) : Z * Z * Z :=
  let '(year, yday) := yearAndYday z in
  let '(month, day) := monthAndDay (isLeap year) yday in
  (year, month, day).

Definition Year (t : Time) : Z := fst (fst (civilFromDays (localDays t))).
Definition Month (t : Time) : Z := snd (fst (civilFromDays (localDays t))).
Definition Day (t : Time) : Z := snd (civilFromDays (localDays t)).

(** Sunday is 0; 1970-01-01 was a Thursday. *)
Definition Weekday (t : Time) : Z := (localDays t + 4) mod 7.

(** [ISOWeek]: the year and the week of the Thursday of the ISO week. *)
Definition ISOWeek (t : Time) : Z * Z :=
  let wd := (localDays t + 4) mod 7 in
  let delta := if wd =? 0 then -3 else 4 - wd in
  let thursday := localDays t + delta in
  let '(year, yday) := yearAndYday thursday in
  (year, yday / 7 + 1).

(** [time.Date(y, m, d, 0, 0, 0, 0, time.UTC)]: the month is normalised
    into 1..12 with carry into the year; days overflow into the months. *)
Definition Date (y m d : Z) : Time :=
  let y' := y + (m - 1) / 12 in
  let m' := (m - 1) mod 12 + 1 in
  mkTime (86400 * daysFromCivil y' m' d) 0 0.

Definition Unix (t : Time) : Z := unixSec t.

Definition monthString (m : Z) : string :=
  match m with
  | 1 => "January" | 2 => "February" | 3 => "March" | 4 => "April"
  | 5 => "May" | 6 => "June" | 7 => "July" | 8 => "August"
  | 9 => "September" | 10 => "October" | 11 => "November" | 12 => "December"
  | _ => "%!Month(" ++ NilZero.string_of_int (Z.to_int m) ++ ")"
  end%string.

Definition weekdayString (w : Z) : string :=
  match w with
  | 0 => "Sunday" | 1 => "Monday" | 2 => "Tuesday" | 3 => "Wednesday"
  | 4 => "Thursday" | 5 => "Friday" | 6 => "Saturday"
  | _ => "%!Weekday(" ++ NilZero.string_of_int (Z.to_int w) ++ ")"
  end%string.

(** A run of [n] zeros. *)
Fixpoint zeros (n : nat) : string :=
  match n with O => EmptyString | S n' => String "0" (zeros n') end.

(** Decimal digits of the absolute value, then zero-padded to [w] digits. *)
Definition digits (z : Z) : string :=
  NilZero.string_of_uint (N.to_uint (Z.abs_N z)).

Definition padDigits (w : nat) (z : Z) : string :=
  let ds := digits z in (zeros (w - String.length ds) ++ ds)%string.

(** [%d] of [fmt]. *)
Definition itoa (z : Z) : string := NilZero.string_of_int (Z.to_int z).

(** [%0wd] of [fmt]: the sign counts in the width. *)
Definition fmtPad0 (w : nat) (z : Z) : string :=
  if z <? 0 then ("-" ++ padDigits (w - 1) z)%string else padDigits w z.

(** The package's [appendInt]: the width counts digits only. *)
Definition appendInt (w : nat) (z : Z) : string :=
  if z <? 0 then ("-" ++ padDigits w z)%string else padDigits w z.

(** [t.Format("2006-01-02")]. *)
Definition formatISODate (t : Time) : string :=
  (appendInt 4 (Year t) ++ "-" ++ appendInt 2 (Month t) ++ "-" ++ appendInt 2 (Day t))%string.

(** The zone of RFC 3339: [Z] for offset zero, else a signed hh:mm. *)
Definition formatZone (off : Z) : string :=
  if off =? 0 then "Z"%string
  else
    let mins := Z.quot off 60 in
    ((if (mins <? 0)%Z then "-" else "+") ++ appendInt 2 (Z.quot (Z.abs mins) 60)
       ++ ":" ++ appendInt 2 (Z.rem (Z.abs mins) 60))%string.

(** [t.Format(time.RFC3339)]. *)
Definition formatRFC3339 (t : Time) : string :=
  let s := secOfDay t in
  (formatISODate t ++ "T" ++ appendInt 2 (s / 3600) ++ ":" ++ appendInt 2 (s mod 3600 / 60)
     ++ ":" ++ appendInt 2 (s mod 60) ++ formatZone (zoneOffset t))%string.

End GoTime.

Import GoTime.

(** ** Rendering of the request date *)

Section Rendering.

(** The package-level options, set once by the command line. *)
Variables (dateStyle calendar : string).

Local Open Scope string_scope.

(** [verboseCalendarSentence]: the sentence in the selected calendar. *)
Definition verboseCalendarSentence (t : Time) : string :=
  let weekday := weekdayString (Weekday t) in
  let gregMonth := monthString (Month t) in
  let day := Day t in
  let sfx := ordinalSuffix day in
  let y := Year t in
  if calendar =? "gregorian" then
    "This request was made on " ++ weekday ++ ", " ++ gregMonth ++ " " ++ itoa day ++ sfx
      ++ " of the year " ++ itoa y ++ " of the common era."
  else if calendar =? "buddhist" then
    let by_ := (y +! 543)%Z in
    "This request was made on " ++ weekday ++ ", " ++ gregMonth ++ " " ++ itoa day ++ sfx
      ++ " of the year " ++ itoa by_ ++ " of the Buddhist Era."
  else if calendar =? "minguo" then
    let ry := (y -! 1911)%Z in
    "This request was made on " ++ weekday ++ ", " ++ gregMonth ++ " " ++ itoa day ++ sfx
      ++ " of the year " ++ itoa ry ++ " of the Minguo calendar."
  else if calendar =? "julian" then
    let '(jy, jm, jd) := julianFromGregorian y (Month t) day in
    let jMonth := monthName jm in
    let jsfx := ordinalSuffix jd in
    "This request was made on " ++ weekday ++ ", " ++ jMonth ++ " " ++ itoa jd ++ jsfx
      ++ " of the year " ++ itoa jy ++ " of the Julian calendar."
  else if calendar =? "japanese" then
    let '(era, eraYear) := japaneseEra y (Month t) day in
    "This request was made on " ++ weekday ++ ", " ++ gregMonth ++ " " ++ itoa day ++ sfx
      ++ " in " ++ era ++ " " ++ itoa eraYear ++ " of the Japanese calendar."
  else if calendar =? "islamic" then
    let '(iy, im, id) := islamicCivilFromGregorian y (Month t) day in
    let iMonth := islamicMonthName im in
    let isfx := ordinalSuffix id in
    "This request was made on " ++ weekday ++ ", " ++ iMonth ++ " " ++ itoa id ++ isfx
      ++ " in year " ++ itoa iy ++ " AH of the Islamic (Hijri) calendar."
  else if calendar =? "hebrew" then
    let hy := hebrewYearApprox y (Month t) day in
    "This request was made on " ++ weekday ++ ", " ++ gregMonth ++ " " ++ itoa day ++ sfx
      ++ " in year " ++ itoa hy ++ " AM of the Hebrew calendar (tabular approximation)."
  else
    "This request was made on " ++ weekday ++ ", " ++ gregMonth ++ " " ++ itoa day ++ sfx
      ++ " of the year " ++ itoa y ++ " of the common era.".

(** [FormatRequestDate]: the request date in the selected style. *)
Definition FormatRequestDate (t : Time) : string :=
  if dateStyle =? "iso-date" then formatISODate t
  else if dateStyle =? "rfc3339" then
    let utc := Date (Year t) (Month t) (Day t) in
    formatRFC3339 utc
  else if dateStyle =? "unix" then
    let utc := Date (Year t) (Month t) (Day t) in
    itoa (Unix utc)
  else if dateStyle =? "iso-week" then
    let '(y, w) := ISOWeek t in
    let isoWeekday := Weekday t in
    let isoWeekday := if (isoWeekday =? 0)%Z then 7%Z else isoWeekday in
    fmtPad0 4 y ++ "-W" ++ fmtPad0 2 w ++ "-" ++ itoa isoWeekday
  else if dateStyle =? "gce-verbose" then verboseCalendarSentence t
  else verboseCalendarSentence t.

End Rendering.

(** ** Reference definitions of the specification *)

Module Ref.

(** Leap years of the proleptic Gregorian calendar. *)
Definition isLeap (y : Z) : bool :=
  ((y mod 4 =? 0) && negb (y mod 100 =? 0)) || (y mod 400 =? 0).

Definition daysIn (y m : Z) : Z :=
  match m with
  | 2 => if isLeap y then 29 else 28
  | 4 | 6 | 9 | 11 => 30
  | _ => 31
  end.

(** A calendar-valid proleptic Gregorian date. *)
Definition validDate (y m d : Z) : bool :=
  (1 <=? m) && (m <=? 12) && (1 <=? d) && (d <=? daysIn y m).

(** The date advanced by one calendar day. *)
Definition nextDay (y m d : Z) : Z * Z * Z :=
  if d <? daysIn y m then (y, m, d + 1)
  else if m <? 12 then (y, m + 1, 1)
  else (y + 1, 1, 1).

(** The astronomical Julian Day Number of a Gregorian date, with the
    mathematical floor. *)
Definition gregorianJDN (year month day : Z) : Z :=
  let a := (14 - month) / 12 in
  let y := year + 4800 - a in
  let m := month + 12 * a - 3 in
  day + (153 * m + 2) / 5 + 365 * y + y / 4 - y / 100 + y / 400 - 32045.

(** The Julian Day Number of a date of the Julian calendar. *)
Definition julianToJDN (year month day : Z) : Z :=
  let a := (14 - month) / 12 in
  let y := year + 4800 - a in
  let m := month + 12 * a - 3 in
  day + (153 * m + 2) / 5 + 365 * y + y / 4 - 32083.

(** The Julian Day Number of a civil (tabular) Hijri date: 30-year cycle
    of 10631 days, epoch 1948440. *)
Definition islamicToJDN (y m d : Z) : Z :=
  (11 * y + 3) / 30 + 354 * y + 30 * m - (m - 1) / 2 + d + 1948440 - 385.

(** Lexicographic order on (year, month, day). *)
Definition dateLe (a b : Z * Z * Z) : Prop :=
  let '(y1, m1, d1) := a in
  let '(y2, m2, d2) := b in
  y1 < y2 \/ (y1 = y2 /\ (m1 < m2 \/ (m1 = m2 /\ d1 <= d2))).

(** The ordinal suffix rule: 11..13 first, then the last digit. *)
Definition ordinal (day : Z) : string :=
  if (day mod 100 =? 11) || (day mod 100 =? 12) || (day mod 100 =? 13) then "th"%string
  else match day mod 10 with
       | 1 => "st" | 2 => "nd" | 3 => "rd" | _ => "th"
       end%string.

End Ref.

(** ** Definitions of the statements and of the proofs *)

(** The start date of an era. *)
Definition eraStart (e : eraDef) : Z * Z * Z := (era_y e, era_m e, era_d e).

(** The era found by the scan is the greatest start date of the table that
    the date reaches. *)
Definition greatestEraBelow (e : eraDef) (y m d : Z) : Prop :=
  In e eras /\
  Ref.dateLe (eraStart e) (y, m, d) /\
  forall e', In e' eras -> Ref.dateLe (eraStart e') (y, m, d) ->
             Ref.dateLe (eraStart e') (eraStart e).

(** The computation of [gregorianToJDN] in unbounded integers. *)
Definition gregorianToJDN_Z (y m d : Z) : Z :=
  let a := (14 - m) ÷ 12 in
  let y2 := y + 4800 - a in
  let m2 := m + 12 * a - 3 in
  d + (153 * m2 + 2) ÷ 5 + 365 * y2 + y2 ÷ 4 - y2 ÷ 100 + y2 ÷ 400 - 32045.

(** The steps of [islamicCivilFromGregorian] after the reduction to one
    30-year cycle, as a function of the day [l] within the cycle: the year
    of the cycle, the month and the day. *)
Definition islamicCycleDate (l : Z) : Z * Z * Z :=
  let j := ((10985 -! l) /! 5316) *! ((50 *! l) /! 17719) in
  let j := j +! (l /! 5670) *! ((43 *! l) /! 15238) in
  let l := l -! ((30 -! j) /! 15) *! ((17719 *! j) /! 50) -! (j /! 16) *! ((15238 *! j) /! 43) +! 29 in
  let im := (24 *! l) /! 709 in
  let id := l -! (709 *! im) /! 24 in
  (j, im, id).

(** The same steps in unbounded integers. *)
Definition islamicCycleDate_Z (l : Z) : Z * Z * Z :=
  let j := ((10985 - l) ÷ 5316) * ((50 * l) ÷ 17719) in
  let j := j + (l ÷ 5670) * ((43 * l) ÷ 15238) in
  let l := l - ((30 - j) ÷ 15) * ((17719 * j) ÷ 50) - (j ÷ 16) * ((15238 * j) ÷ 43) + 29 in
  let im := (24 * l) ÷ 709 in
  let id := l - (709 * im) ÷ 24 in
  (j, im, id).

(** Checking a decidable property on a finite interval of integers. *)
Fixpoint all_from (n : nat) (lo : Z) (P : Z -> bool) : bool :=
  match n with
  | O => true
  | S k => P lo && all_from k (lo + 1) P
  end.

(** One day of the cycle: the date is in range and the Hijri day number
    formula maps it back to the day. *)
Definition islamicCycleDate_ok (l : Z) : bool :=
  let '(j, im, id) := islamicCycleDate_Z l in
  (1 <=? j) && (j <=? 30) && (1 <=? im) && (im <=? 12) && (1 <=? id) && (id <=? 30)
  && (Ref.islamicToJDN j im id =? l + 1948085).

(** The length of a month, by the leap flag of its year. *)
Definition monthLength (leap : bool) (m : Z) : Z :=
  match m with
  | 2 => if leap then 29 else 28
  | 4 | 6 | 9 | 11 => 30
  | _ => 31
  end.

(** One day of the year: month and day are in range and count back to it. *)
Definition monthAndDay_ok (leap : bool) (yd : Z) : bool :=
  let '(m, d) := monthAndDay leap yd in
  (1 <=? m) && (m <=? 12) && (1 <=? d) && (d <=? monthLength leap m)
  && (daysBefore (m - 1) + (if leap && (3 <=? m) then 1 else 0) + (d - 1) =? yd).

(** The styles and calendars that the dispatch of the rendering names. *)
Definition supportedStyles : list string :=
  [ "gce-verbose"; "iso-date"; "rfc3339"; "unix"; "iso-week" ]%string.

Definition nonVerboseStyles : list string :=
  [ "iso-date"; "rfc3339"; "unix"; "iso-week" ]%string.

Definition supportedCalendars : list string :=
  [ "gregorian"; "julian"; "buddhist"; "minguo"; "japanese"; "islamic"; "hebrew" ]%string.

(** The default rendering: the verbose sentence of the common era. *)
Definition commonEraSentence (t : Time) : string :=
  ("This request was made on " ++ weekdayString (Weekday t) ++ ", "
     ++ monthString (Month t) ++ " " ++ itoa (Day t) ++ ordinalSuffix (Day t)
     ++ " of the year " ++ itoa (Year t) ++ " of the common era.")%string.

(** A request at 13:00:05 local time on 2025-09-09, two hours east of UTC. *)
Definition sampleTime : Time := mkTime 1757415605 5 7200.

(** The first second of the same local day. *)
Definition sampleTime' : Time := mkTime 1757368800 0 7200.

(** ** VAT number formats of the package [vies] *)

Module Vies.

Local Open Scope string_scope.

(** The regular expressions of the country patterns.  Every pattern of
    the table is anchored at both ends ([^...$]), so [MatchString] is a
    match of the whole text. *)
Inductive regex : Type :=
| Lit (s : string)                      (* literal text *)
| Cls (ranges : list (ascii * ascii))   (* a bracket class of ranges *)
| Seq (r1 r2 : regex)                   (* r1 r2 *)
| Alt (r1 r2 : regex)                   (* r1|r2 *)
| Rep (r : regex) (min max : nat).      (* r{min,max} *)

Definition inRange (c : ascii) (r : ascii * ascii) : bool :=
  (nat_of_ascii (fst r) <=? nat_of_ascii c)%nat && (nat_of_ascii c <=? nat_of_ascii (snd r))%nat.

Definition inClass (c : ascii) (ranges : list (ascii * ascii)) : bool :=
  existsb (inRange c) ranges.

(** The text left after the literal [p] at the start of [s]. *)
Fixpoint stripPrefix (p s : string) : option string :=
  match p with
  | EmptyString => Some s
  | String a p' =>
      match s with
      | String b s' => if Ascii.eqb a b then stripPrefix p' s' else None
      | EmptyString => None
      end
  end.

(** Up to [extra] further repetitions of [step]. *)
Fixpoint atMost (step : string -> list string) (extra : nat) (s : string) : list string :=
  match extra with
  | O => [s]
  | S e => s :: flat_map (atMost step e) (step s)
  end.

(** [n] repetitions of [step], then up to [extra] more. *)
Fixpoint exactlyThen (step : string -> list string) (n extra : nat) (s : string) : list string :=
  match n with
  | O => atMost step extra s
  | S k => flat_map (exactlyThen step k extra) (step s)
  end.

(** All the ways a regular expression matches at the start of a text,
    each given by the text left over. *)
Fixpoint matchPrefix (r : regex) (s : string) : list string :=
  match r with
  | Lit l => match stripPrefix l s with Some rest => [rest] | None => [] end
  | Cls ranges =>
      match s with
      | String c rest => if inClass c ranges then [rest] else []
      | EmptyString => []
      end
  | Seq r1 r2 => flat_map (matchPrefix r2) (matchPrefix r1 s)
  | Alt r1 r2 => matchPrefix r1 s ++ matchPrefix r2 s
  | Rep r' lo hi => exactlyThen (matchPrefix r') lo (hi - lo) s
  end%list.

(** [Pattern.MatchString] for an anchored pattern. *)
Definition MatchString (r : regex) (s : string) : bool :=
  existsb (String.eqb EmptyString) (matchPrefix r s).

(** The classes of the patterns. *)
Definition digit : regex := Cls [("0", "9")]%char.
Definition upper : regex := Cls [("A", "Z")]%char.
Definition upperOrDigit : regex := Cls [("A", "Z"); ("0", "9")]%char.
(** [\d{n,m}]. *)
Definition digitsRep (n m : nat) : regex := Rep digit n m.

(** [CountryValidator]: validation rules of one country. *)
Record CountryValidator : Type := mkValidator {
  Code : string;
  Name : string;
  Pattern : regex;
  MinLength : Z;
  MaxLength : Z;
  Description : string
}.

(** [countryValidators]: the map from country code to rules, by entry. *)
Definition countryValidators : list (string * CountryValidator) :=
  [ ("AT", mkValidator "AT" "Austria" (Seq (Lit "ATU") (digitsRep 8 8)) 11 11 "ATU + 8 digits");
    ("BE", mkValidator "BE" "Belgium" (Seq (Lit "BE") (Seq (Cls [("0", "1")]%char) (digitsRep 9 9)))
             12 12 "BE0 or BE1 + 9 digits");
    ("BG", mkValidator "BG" "Bulgaria" (Seq (Lit "BG") (digitsRep 9 10)) 11 12 "BG + 9 or 10 digits");
    ("HR", mkValidator "HR" "Croatia" (Seq (Lit "HR") (digitsRep 11 11)) 13 13 "HR + 11 digits");
    ("CY", mkValidator "CY" "Cyprus" (Seq (Lit "CY") (Seq (digitsRep 8 8) upper)) 11 11
             "CY + 8 digits + 1 letter");
    ("CZ", mkValidator "CZ" "Czech Republic" (Seq (Lit "CZ") (digitsRep 8 10)) 10 12
             "CZ + 8, 9, or 10 digits");
    ("DK", mkValidator "DK" "Denmark" (Seq (Lit "DK") (digitsRep 8 8)) 10 10 "DK + 8 digits");
    ("EE", mkValidator "EE" "Estonia" (Seq (Lit "EE") (digitsRep 9 9)) 11 11 "EE + 9 digits");
    ("FI", mkValidator "FI" "Finland" (Seq (Lit "FI") (digitsRep 8 8)) 10 10 "FI + 8 digits");
    ("FR", mkValidator "FR" "France"
             (Seq (Lit "FR")
                (Seq (Rep (Cls [("A", "H"); ("J", "N"); ("P", "Z"); ("0", "9")]%char) 2 2)
                   (digitsRep 9 9)))
             13 13 "FR + 2 characters + 9 digits");
    ("DE", mkValidator "DE" "Germany" (Seq (Lit "DE") (digitsRep 9 9)) 11 11 "DE + 9 digits");
    ("EL", mkValidator "EL" "Greece" (Seq (Lit "EL") (digitsRep 9 9)) 11 11 "EL + 9 digits");
    ("GR", mkValidator "GR" "Greece" (Seq (Lit "GR") (digitsRep 9 9)) 11 11
             "GR + 9 digits (alternative for EL)");
    ("HU", mkValidator "HU" "Hungary" (Seq (Lit "HU") (digitsRep 8 8)) 10 10 "HU + 8 digits");
    ("IE", mkValidator "IE" "Ireland" (Seq (Lit "IE") (Rep upperOrDigit 8 8)) 10 10
             "IE + 8 alphanumeric characters");
    ("IT", mkValidator "IT" "Italy" (Seq (Lit "IT") (digitsRep 11 11)) 13 13 "IT + 11 digits");
    ("LV", mkValidator "LV" "Latvia" (Seq (Lit "LV") (digitsRep 11 11)) 13 13 "LV + 11 digits");
    ("LT", mkValidator "LT" "Lithuania" (Seq (Lit "LT") (Alt (digitsRep 9 9) (digitsRep 12 12)))
             11 14 "LT + 9 or 12 digits");
    ("LU", mkValidator "LU" "Luxembourg" (Seq (Lit "LU") (digitsRep 8 8)) 10 10 "LU + 8 digits");
    ("MT", mkValidator "MT" "Malta" (Seq (Lit "MT") (digitsRep 8 8)) 10 10 "MT + 8 digits");
    ("NL", mkValidator "NL" "Netherlands"
             (Seq (Lit "NL") (Seq (digitsRep 9 9) (Seq (Lit "B") (digitsRep 2 2))))
             14 14 "NL + 9 digits + B + 2 digits");
    ("PL", mkValidator "PL" "Poland" (Seq (Lit "PL") (digitsRep 10 10)) 12 12 "PL + 10 digits");
    ("PT", mkValidator "PT" "Portugal" (Seq (Lit "PT") (digitsRep 9 9)) 11 11 "PT + 9 digits");
    ("RO", mkValidator "RO" "Romania" (Seq (Lit "RO") (digitsRep 2 10)) 4 12 "RO + 2 to 10 digits");
    ("SK", mkValidator "SK" "Slovakia" (Seq (Lit "SK") (digitsRep 10 10)) 12 12 "SK + 10 digits");
    ("SI", mkValidator "SI" "Slovenia" (Seq (Lit "SI") (digitsRep 8 8)) 10 10 "SI + 8 digits");
    ("ES", mkValidator "ES" "Spain"
             (Seq (Lit "ES") (Seq upperOrDigit (Seq (digitsRep 7 7) upperOrDigit)))
             11 11 "ES + character + 7 digits + character");
    ("SE", mkValidator "SE" "Sweden" (Seq (Lit "SE") (digitsRep 12 12)) 14 14 "SE + 12 digits") ].

(** The map lookup [countryValidators[code]]. *)
Fixpoint lookupIn (table : list (string * CountryValidator)) (code : string)
  : option CountryValidator :=
  match table with
  | [] => None
  | (k, v) :: rest => if k =? code then Some v else lookupIn rest code
  end.

Definition lookup (code : string) : option CountryValidator :=
  lookupIn countryValidators code.

(** [ValidationError] and [ServiceError], and the other errors by their text. *)
Record ErrorFields : Type := mkError { errCode : string; errMessage : string; errVATNumber : string }.

Inductive GoError : Type :=
| ValidationError (e : ErrorFields)
| ServiceError (e : ErrorFields)
| OtherError (text : string).

Definition ErrInvalidFormat : string := "INVALID_FORMAT".
Definition ErrUnsupportedCountry : string := "UNSUPPORTED_COUNTRY".
Definition ErrServiceError : string := "SERVICE_ERROR".
Definition ErrNetworkTimeout : string := "NETWORK_TIMEOUT".
Definition ErrServiceUnavailable : string := "SERVICE_UNAVAILABLE".
Definition ErrSOAPFault : string := "SOAP_FAULT".

(** [len(s)], [s[:n]] and [s[n:]]; every slice of the package is taken
    behind a test of the length. *)
Definition len (s : string) : Z := Z.of_nat (String.length s).

Fixpoint sliceTo (n : nat) (s : string) : string :=
  match n, s with
  | S k, String c rest => String c (sliceTo k rest)
  | _, _ => EmptyString
  end.

Fixpoint sliceFrom (n : nat) (s : string) : string :=
  match n, s with
  | S k, String c rest => sliceFrom k rest
  | _, _ => s
  end.

(** [strings.ReplaceAll] of every space by nothing. *)
Fixpoint removeSpaces (s : string) : string :=
  match s with
  | EmptyString => EmptyString
  | String c rest => if Ascii.eqb c " " then removeSpaces rest else String c (removeSpaces rest)
  end.

(** [strings.ToUpper] on ASCII text: the letters a..z are shifted to A..Z.
    On text with bytes from 128 on Go maps Unicode letters, which is not
    modelled; the properties below are about ASCII input. *)
Definition upperChar (c : ascii) : ascii :=
  let n := nat_of_ascii c in
  if (97 <=? n)%nat && (n <=? 122)%nat then ascii_of_nat (n - 32) else c.

Fixpoint ToUpper (s : string) : string :=
  match s with
  | EmptyString => EmptyString
  | String c rest => String (upperChar c) (ToUpper rest)
  end.

Fixpoint isASCII (s : string) : bool :=
  match s with
  | EmptyString => true
  | String c rest => (nat_of_ascii c <? 128)%nat && isASCII rest
  end.

(** [strings.HasPrefix]. *)
Definition HasPrefix (s p : string) : bool :=
  match stripPrefix p s with Some _ => true | None => false end.

(** [ValidateFormat]: [None] is the nil error. *)
Definition ValidateFormat (vatNumber : string) : option ErrorFields :=
  let vatNumber := ToUpper (removeSpaces vatNumber) in
  if (len vatNumber <? 3)%Z then
    Some (mkError ErrInvalidFormat "VAT number too short (minimum 3 characters)" vatNumber)
  else
    let countryCode := sliceTo 2 vatNumber in
    let '(countryCode, vatNumber) :=
      if countryCode =? "GR" then ("EL", "EL" ++ sliceFrom 2 vatNumber)
      else (countryCode, vatNumber) in
    match lookup countryCode with
    | None =>
        Some (mkError ErrUnsupportedCountry
                ("Unsupported country code: " ++ countryCode) vatNumber)
    | Some validator =>
        if (len vatNumber <? MinLength validator)%Z || (len vatNumber >? MaxLength validator)%Z then
          Some (mkError ErrInvalidFormat
                  ("Invalid length for " ++ Name validator ++ " VAT number. Expected: "
                     ++ Description validator) vatNumber)
        else if negb (MatchString (Pattern validator) vatNumber) then
          Some (mkError ErrInvalidFormat
                  ("Invalid format for " ++ Name validator ++ " VAT number. Expected: "
                     ++ Description validator) vatNumber)
        else None
    end.

(** [ParseVATNumber]: country code, number and error. *)
Definition ParseVATNumber (vatNumber : string) : string * string * option ErrorFields :=
  match ValidateFormat vatNumber with
  | Some err => (EmptyString, EmptyString, Some err)
  | None =>
      let vatNumber := ToUpper (removeSpaces vatNumber) in
      let vatNumber :=
        if HasPrefix vatNumber "GR" then "EL" ++ sliceFrom 2 vatNumber else vatNumber in
      let countryCode := sliceTo 2 vatNumber in
      let number := sliceFrom 2 vatNumber in
      let number :=
        if countryCode =? "AT" then
          if HasPrefix number "U" then sliceFrom 1 number else number
        else number in
      (countryCode, number, None)
  end.

(** [GetCountryInfo]: the rules of a country, or an error text. *)
Definition GetCountryInfo (countryCode : string) : CountryValidator + string :=
  match lookup countryCode with
  | Some validator => inl validator
  | None => inr ("unsupported country code: " ++ countryCode)
  end.

(** The line feed of the format strings. *)
Definition newline : string := String (ascii_of_nat 10) EmptyString.

(** [PlainFormatter.FormatError]: an error as plain text. *)
Definition PlainFormatError (err : GoError) : string :=
  match err with
  | ValidationError e =>
      "Error: " ++ errMessage e ++ newline
      ++ (if negb (errVATNumber e =? EmptyString)
          then "VAT Number: " ++ errVATNumber e ++ newline else EmptyString)
      ++ (if errCode e =? ErrInvalidFormat then
            if (len (errVATNumber e) >=? 2)%Z then
              match GetCountryInfo (sliceTo 2 (errVATNumber e)) with
              | inl countryInfo => "Expected Format: " ++ Description countryInfo ++ newline
              | inr _ => EmptyString
              end
            else EmptyString
          else EmptyString)
  | ServiceError e =>
      "Error: " ++ errMessage e ++ newline
      ++ (if negb (errVATNumber e =? EmptyString)
          then "VAT Number: " ++ errVATNumber e ++ newline else EmptyString)
      ++ (if errCode e =? ErrNetworkTimeout
          then "Try increasing timeout with --timeout flag" ++ newline
          else if errCode e =? ErrServiceUnavailable
          then "Please retry later or check VIES service status" ++ newline
          else EmptyString)
  | OtherError text => "Error: " ++ text ++ newline
  end.

End Vies.

(** ** Option resolution of the command [viesquery] *)

Module Main.

Local Open Scope string_scope.

(** The values of the configuration file; the zero values when it is
    missing or unreadable. *)
Record config : Type := mkConfig {
  Format : string;
  Timeout : Z;
  Verbose : bool;
  DateStyle : string;
  Calendar : string
}.

(** [getEnvString]: the value of an environment variable, or the default
    when it is unset or empty ([os.Getenv] gives the empty text then). *)
Definition getEnvString (getenv : string -> string) (key defaultValue : string) : string :=
  let value := getenv key in
  if negb (value =? EmptyString) then value else defaultValue.

(** [flag.String] after [flag.Parse]: the argument of the flag when it is
    on the command line, else its default value. *)
Definition flagString (args : string -> option string) (name value : string) : string :=
  match args name with
  | Some v => v
  | None => value
  end.

(** The date style that [main] hands to [SetDateOptions]. *)
Definition resolvedDateStyle (getenv : string -> string) (args : string -> option string)
  (cfg : config) : string :=
  let dateStyle := flagString args "date-style" (getEnvString getenv "VIESQUERY_DATE_STYLE" EmptyString) in
  let resolvedDateStyle := "gce-verbose" in
  let resolvedDateStyle :=
    if negb (DateStyle cfg =? EmptyString) then DateStyle cfg else resolvedDateStyle in
  let resolvedDateStyle :=
    if negb (dateStyle =? EmptyString) then dateStyle else resolvedDateStyle in
  resolvedDateStyle.

(** The calendar that [main] hands to [SetDateOptions]. *)
Definition resolvedCalendar (getenv : string -> string) (args : string -> option string)
  (cfg : config) : string :=
  let calendar := flagString args "calendar" (getEnvString getenv "VIESQUERY_CALENDAR" EmptyString) in
  let resolvedCalendar := "gregorian" in
  let resolvedCalendar :=
    if negb (Calendar cfg =? EmptyString) then Calendar cfg else resolvedCalendar in
  let resolvedCalendar :=
    if negb (calendar =? EmptyString) then calendar else resolvedCalendar in
  resolvedCalendar.

End Main.

(** ** Measures of the country patterns *)

(** The least and greatest length of a text a pattern matches, the
    characters it can contain and the literal text it starts with. *)
Fixpoint minLen (r : Vies.regex) : nat :=
  match r with
  | Vies.Lit l => String.length l
  | Vies.Cls _ => 1
  | Vies.Seq r1 r2 => minLen r1 + minLen r2
  | Vies.Alt r1 r2 => Nat.min (minLen r1) (minLen r2)
  | Vies.Rep r' lo _ => lo * minLen r'
  end.

Fixpoint maxLen (r : Vies.regex) : nat :=
  match r with
  | Vies.Lit l => String.length l
  | Vies.Cls _ => 1
  | Vies.Seq r1 r2 => maxLen r1 + maxLen r2
  | Vies.Alt r1 r2 => Nat.max (maxLen r1) (maxLen r2)
  | Vies.Rep r' lo hi => (lo + (hi - lo)) * maxLen r'
  end.

Fixpoint charIn (c : ascii) (s : string) : bool :=
  match s with
  | EmptyString => false
  | String a rest => Ascii.eqb a c || charIn c rest
  end.

Fixpoint allowed (r : Vies.regex) (c : ascii) : bool :=
  match r with
  | Vies.Lit l => charIn c l
  | Vies.Cls ranges => Vies.inClass c ranges
  | Vies.Seq r1 r2 | Vies.Alt r1 r2 => allowed r1 c || allowed r2 c
  | Vies.Rep r' _ _ => allowed r' c
  end.

Fixpoint litPrefix (r : Vies.regex) : string :=
  match r with
  | Vies.Lit l => l
  | Vies.Seq r1 _ => litPrefix r1
  | _ => EmptyString
  end.

Fixpoint allChars (f : ascii -> bool) (s : string) : bool :=
  match s with
  | EmptyString => true
  | String c rest => f c && allChars f rest
  end.

Definition isDigit (c : ascii) : bool := Vies.inClass c [("0", "9")]%char.
Definition isUpperOrDigit (c : ascii) : bool := Vies.inClass c [("A", "Z"); ("0", "9")]%char.

(** The 256 characters. *)
Definition allAscii : list ascii := map ascii_of_nat (seq 0 256).

(** An entry of the table agrees with its key and with its pattern. *)
Definition entryCoherent (kv : string * Vies.CountryValidator) : bool :=
  let '(k, v) := kv in
  (Vies.Code v =? k)%string && (String.length k =? 2)%nat
  && Vies.HasPrefix (litPrefix (Vies.Pattern v)) k
  && (4 <=? Vies.MinLength v) && (Vies.MaxLength v <=? 14)
  && (Vies.MinLength v <=? Z.of_nat (minLen (Vies.Pattern v)))
  && (Z.of_nat (maxLen (Vies.Pattern v)) <=? Vies.MaxLength v)
  && forallb (fun c => implb (allowed (Vies.Pattern v) c) (isUpperOrDigit c)) allAscii.

(** The cleaned number with the Greek alias replaced, as [ValidateFormat]
    and [ParseVATNumber] both compute it. *)
Definition normalize (vatNumber : string) : string :=
  let v := Vies.ToUpper (Vies.removeSpaces vatNumber) in
  if (Vies.sliceTo 2 v =? "GR")%string then ("EL" ++ Vies.sliceFrom 2 v)%string else v.

(** The order of the sources of one option: the flag, the environment,
    the configuration file, the built-in default. *)
Definition optionByPrecedence (flag : option string) (env cfg builtin : string) : string :=
  match flag with
  | Some v => if (v =? EmptyString)%string
              then (if (cfg =? EmptyString)%string then builtin else cfg)
              else v
  | None => if (env =? EmptyString)%string
            then (if (cfg =? EmptyString)%string then builtin else cfg)
            else env
  end.

(** ** Calendars of reference *)

(** Leap years and month lengths of the Julian calendar. *)
Definition julianLeap (y : Z) : bool := y mod 4 =? 0.

Definition julianDaysIn (y m : Z) : Z :=
  match m with
  | 2 => if julianLeap y then 29 else 28
  | 4 | 6 | 9 | 11 => 30
  | _ => 31
  end.

(** A calendar-valid date of the Julian calendar. *)
Definition validJulianDate (y m d : Z) : bool :=
  (1 <=? m) && (m <=? 12) && (1 <=? d) && (d <=? julianDaysIn y m).

(** The 11 leap years of the 30-year cycle of the tabular Hijri calendar
    and its month lengths. *)
Definition islamicLeap (y : Z) : bool := (11 * y + 14) mod 30 <? 11.

Definition islamicDaysIn (y m : Z) : Z :=
  if Z.odd m then 30 else if (m =? 12) && islamicLeap y then 30 else 29.

(** A date of the tabular Hijri calendar. *)
Definition validIslamicDate (y m d : Z) : bool :=
  (1 <=? y) && (1 <=? m) && (m <=? 12) && (1 <=? d) && (d <=? islamicDaysIn y m).

(** One day of the cycle: its date is a date of the tabular calendar. *)
Definition islamicCycleDate_valid (l : Z) : bool :=
  let '(j, im, id) := islamicCycleDate_Z l in validIslamicDate j im id.

(** ** The request date of a response

    The time value that is rendered is read from the text of the response
    by [parseSOAPResponse], with [time.Parse] and the layouts [2006-01-02]
    and [2006-01-02-07:00].  [GoParse] is [time.Parse] for these two
    layouts, as the time package of the module's Go release (1.22) reads
    them; the package is not part of the repository, and the text of its
    parse errors is left open. *)

Module GoParse.

Local Open Scope string_scope.

(** Why a parse fails: a value that does not fit the layout, a field out
    of its range, text after the layout, a day that the month does not
    have. *)
Inductive parseFailure : Type :=
| BadValue
| OutOfRange (field : string)
| ExtraText
| DayOutOfRange.

Definition isDigitChar (c : ascii) : bool :=
  (48 <=? nat_of_ascii c)%nat && (nat_of_ascii c <=? 57)%nat.

Definition digitVal (c : ascii) : Z := Z.of_nat (nat_of_ascii c) - 48.

(** [getnum]: a number of one or two digits, of two digits when [fixed]. *)
Definition getnum (s : string) (fixed : bool) : option (Z * string) :=
  match s with
  | String a rest =>
      if isDigitChar a then
        match rest with
        | String b rest' =>
            if isDigitChar b then Some (digitVal a * 10 + digitVal b, rest')
            else if fixed then None else Some (digitVal a, rest)
        | EmptyString => if fixed then None else Some (digitVal a, rest)
        end
      else None
  | EmptyString => None
  end.

(** The year of the layout element [2006]: four digits. *)
Definition getyear (s : string) : option (Z * string) :=
  match s with
  | String a (String b (String c (String d rest))) =>
      if isDigitChar a && isDigitChar b && isDigitChar c && isDigitChar d
      then Some (((digitVal a * 10 + digitVal b) * 10 + digitVal c) * 10 + digitVal d, rest)
      else None
  | _ => None
  end.

(** [daysIn]: the days of a month. *)
Definition daysIn (m year : Z) : Z :=
  if (m =? 2)%Z && GoTime.isLeap year then 29
  else (GoTime.daysBefore m - GoTime.daysBefore (m - 1))%Z.

(** The zone of the layout element [-07:00]: a sign, two digits, a colon
    and two digits; the offset in seconds and the text left.  A number out
    of its range is reported before a value that does not fit. *)
Definition getzone (value : string) : (Z * string) + parseFailure :=
  match value with
  | String sign (String h1 (String h2 (String colon (String m1 (String m2 rest))))) =>
      if negb (Ascii.eqb colon ":") then inr BadValue
      else
        let hour := String h1 (String h2 EmptyString) in
        let min := String m1 (String m2 EmptyString) in
        let '(hr, err) :=
          match getnum hour true with Some (n, _) => (n, false) | None => (0%Z, true) end in
        let '(mm, err) :=
          if err then (0%Z, true)
          else match getnum min true with Some (n, _) => (n, false) | None => (0%Z, true) end in
        let rangeErr :=
          if (mm >? 60)%Z then Some "time zone offset minute"
          else if (hr >? 24)%Z then Some "time zone offset hour"
          else None in
        let zoneOffset := ((hr * 60 + mm) * 60)%Z in
        let '(zoneOffset, err) :=
          if Ascii.eqb sign "+" then (zoneOffset, err)
          else if Ascii.eqb sign "-" then ((- zoneOffset)%Z, err)
          else (zoneOffset, true) in
        match rangeErr with
        | Some field => inr (OutOfRange field)
        | None => if err then inr BadValue else inl (zoneOffset, rest)
        end
  | _ => inr BadValue
  end.

(** [time.Parse] with the layout [2006-01-02] ([withZone] false) and with
    the layout [2006-01-02-07:00] ([withZone] true): year, month and day
    with their separators, the zone, no text left, and then the test of
    the day against the month.  A date without a zone is in UTC; with a
    zone, the instant is the local midnight of that zone. *)
Definition ParseDate (withZone : bool) (value : string) : Time + parseFailure :=
  match getyear value with
  | None => inr BadValue
  | Some (year, value) =>
      match Vies.stripPrefix "-" value with
      | None => inr BadValue
      | Some value =>
          match getnum value true with
          | None => inr BadValue
          | Some (month, value) =>
              if (month <=? 0)%Z || (12 <? month)%Z then inr (OutOfRange "month")
              else
                match Vies.stripPrefix "-" value with
                | None => inr BadValue
                | Some value =>
                    match getnum value true with
                    | None => inr BadValue
                    | Some (day, value) =>
                        match (if withZone then getzone value else inl (0%Z, value)) with
                        | inr failure => inr failure
                        | inl (zoneOffset, value) =>
                            if negb (value =? EmptyString) then inr ExtraText
                            else if (day <? 1)%Z || (day >? daysIn month year)%Z
                            then inr DayOutOfRange
                            else
                              let t := GoTime.Date year month day in
                              inl (mkTime (unixSec t - zoneOffset) 0 zoneOffset)
                        end
                    end
                end
          end
      end
  end.

(** The two layouts. *)
Definition layoutDate : string := "2006-01-02".
Definition layoutDateZone : string := "2006-01-02-07:00".

End GoParse.

Section RequestDate.

(** The text of a parse error ([%v] of the error of [time.Parse]), by
    layout, value and failure. *)
Variable ParseErrorText : string -> string -> GoParse.parseFailure -> string.

(** The request date of [parseSOAPResponse]: the date alone, else the date
    with a zone, else a service error. *)
Definition parseSOAPResponse_requestDate (RequestDate : string) : Time + Vies.GoError :=
  match GoParse.ParseDate false RequestDate with
  | inl requestDate => inl requestDate
  | inr _ =>
      match GoParse.ParseDate true RequestDate with
      | inl requestDate => inl requestDate
      | inr err =>
          inr (Vies.ServiceError
                 (Vies.mkError Vies.ErrServiceError
                    ("Failed to parse request date '" ++ RequestDate ++ "': "
                       ++ ParseErrorText GoParse.layoutDateZone RequestDate err)
                    EmptyString))
      end
  end.

End RequestDate.

(** The text of a date in the form YYYY-MM-DD, from its numbers. *)
Definition digitChar (n : Z) : ascii := ascii_of_nat (48 + Z.to_nat n).

Definition twoDigits (n : Z) : string :=
  String (digitChar (n / 10)) (String (digitChar (n mod 10)) EmptyString).

Definition fourDigits (n : Z) : string :=
  (twoDigits (n / 100) ++ twoDigits (n mod 100))%string.

Definition isoDateText (y m d : Z) : string :=
  (fourDigits y ++ "-" ++ twoDigits m ++ "-" ++ twoDigits d)%string.

(** The kind of a failure as a text, for the examples: the message of the
    library without the texts that it quotes. *)
Definition failureKind (layout value : string) (failure : GoParse.parseFailure) : string :=
  match failure with
  | GoParse.BadValue => "cannot parse"
  | GoParse.OutOfRange field => field ++ " out of range"
  | GoParse.ExtraText => "extra text"
  | GoParse.DayOutOfRange => "day out of range"
  end%string.

(** The digits that the rendering writes are the digits of the text. *)
Definition twoDigits_ok (n : Z) : bool :=
  (appendInt 2 n =? twoDigits n)%string.

Definition fourDigits_ok (n : Z) : bool :=
  (appendInt 4 n =? fourDigits n)%string.

(** * Properties *)

(** ** Arithmetic without overflow *)

Lemma wrap_id (z : Z) : GoInt.in_range z -> GoInt.wrap z = z.
Proof.
  unfold GoInt.in_range, GoInt.min_int, GoInt.max_int, GoInt.wrap.
  intros H. rewrite Z.mod_small; lia.
Qed.

Lemma wrap_in_range (z : Z) : GoInt.in_range (GoInt.wrap z).
Proof.
  unfold GoInt.in_range, GoInt.min_int, GoInt.max_int, GoInt.wrap.
  pose proof (Z.mod_pos_bound (z + 2 ^ 63) (2 ^ 64)). lia.
Qed.

(** Wrap-around only sees the residue modulo 2^64. *)
Lemma wrap_shift (z k : Z) : GoInt.wrap (z + k * 2 ^ 64) = GoInt.wrap z.
Proof.
  unfold GoInt.wrap.
  replace (z + k * 2 ^ 64 + 2 ^ 63) with (z + 2 ^ 63 + k * 2 ^ 64) by lia.
  rewrite Z_mod_plus_full. reflexivity.
Qed.

Lemma wrap_decomp (z : Z) : exists k, GoInt.wrap z = z + k * 2 ^ 64.
Proof.
  unfold GoInt.wrap. exists (- ((z + 2 ^ 63) / 2 ^ 64)).
  pose proof (Z.div_mod (z + 2 ^ 63) (2 ^ 64)). lia.
Qed.

Lemma wrap_add_l (a b : Z) : GoInt.wrap (GoInt.wrap a + b) = GoInt.wrap (a + b).
Proof.
  destruct (wrap_decomp a) as [k ->].
  replace (a + k * 2 ^ 64 + b) with (a + b + k * 2 ^ 64) by lia. apply wrap_shift.
Qed.

Lemma wrap_add_r (a b : Z) : GoInt.wrap (a + GoInt.wrap b) = GoInt.wrap (a + b).
Proof.
  destruct (wrap_decomp b) as [k ->].
  replace (a + (b + k * 2 ^ 64)) with (a + b + k * 2 ^ 64) by lia. apply wrap_shift.
Qed.

Lemma wrap_sub_l (a b : Z) : GoInt.wrap (GoInt.wrap a - b) = GoInt.wrap (a - b).
Proof.
  destruct (wrap_decomp a) as [k ->].
  replace (a + k * 2 ^ 64 - b) with (a - b + k * 2 ^ 64) by lia. apply wrap_shift.
Qed.

(** Bounds of terms with truncated and floored divisions by constants. *)
Ltac int_bounds :=
  unfold GoInt.in_range, GoInt.min_int, GoInt.max_int in *;
  Z.to_euclidean_division_equations; lia.

(** Remove the wrap-arounds of a goal, innermost first, each one justified
    by the bounds of its argument. *)
Ltac unwrap :=
  unfold GoInt.add, GoInt.sub, GoInt.mul, GoInt.div, GoInt.rem;
  repeat match goal with
         | |- context [GoInt.wrap ?e] =>
             lazymatch e with
             | context [GoInt.wrap _] => fail
             | _ => rewrite (wrap_id e) by int_bounds
             end
         end.

(** ** Ordinal suffixes *)

Lemma ordinalSuffix_nonneg (day : Z) :
  0 <= day <= GoInt.max_int -> ordinalSuffix day = Ref.ordinal day.
Proof.
  intros H. unfold ordinalSuffix, Ref.ordinal.
  assert (E100 : day %! 100 = day mod 100).
  { unfold GoInt.rem. rewrite Z.rem_mod_nonneg by lia.
    apply wrap_id. int_bounds. }
  assert (E10 : day %! 10 = day mod 10).
  { unfold GoInt.rem. rewrite Z.rem_mod_nonneg by lia.
    apply wrap_id. int_bounds. }
  rewrite E100, E10.
  destruct (_ || _); [reflexivity|].
  assert (B : 0 <= day mod 10 < 10) by (apply Z.mod_pos_bound; lia).
  destruct (day mod 10) as [|p|p]; try reflexivity.
  do 4 (destruct p as [p|p|]; try reflexivity; try lia).
Qed.

(** C8: for every day number from 1 to 31, ordinalSuffix gives "th" when the
    day ends in 11, 12 or 13, and otherwise "st", "nd", "rd" for the last
    digits 1, 2, 3 and "th" for every other last digit; in particular
    1, 2, 3, 4 give st, nd, rd, th; 11, 12, 13 give th; 21, 22, 23 give
    st, nd, rd. *)
Theorem ordinalSuffix_rule :
  (forall day, 1 <= day <= 31 -> ordinalSuffix day = Ref.ordinal day) /\
  ordinalSuffix 1 = "st"%string /\ ordinalSuffix 2 = "nd"%string /\
  ordinalSuffix 3 = "rd"%string /\ ordinalSuffix 4 = "th"%string /\
  ordinalSuffix 11 = "th"%string /\ ordinalSuffix 12 = "th"%string /\
  ordinalSuffix 13 = "th"%string /\ ordinalSuffix 21 = "st"%string /\
  ordinalSuffix 22 = "nd"%string /\ ordinalSuffix 23 = "rd"%string.
Proof.
  split.
  - intros day H. apply ordinalSuffix_nonneg. unfold GoInt.max_int. lia.
  - repeat split; reflexivity.
Qed.

Lemma ordinalSuffix_rule_witness :
  1 <= 22 <= 31 /\ ordinalSuffix 22 = Ref.ordinal 22.
Proof.
  split; [lia | apply (proj1 ordinalSuffix_rule 22); lia].
Defined.

(** ** Japanese eras *)

Lemma afterOrEqual_dateLe (y m d y2 m2 d2 : Z) :
  afterOrEqual y m d y2 m2 d2 = true <-> Ref.dateLe (y2, m2, d2) (y, m, d).
Proof.
  unfold afterOrEqual, Ref.dateLe.
  rewrite !Z.gtb_ltb, Z.geb_leb.
  destruct (Z.eqb_spec y y2), (Z.eqb_spec m m2); simpl;
    rewrite ?Z.ltb_lt, ?Z.leb_le; lia.
Qed.

Lemma afterOrEqual_not_dateLe (y m d y2 m2 d2 : Z) :
  afterOrEqual y m d y2 m2 d2 = false <-> ~ Ref.dateLe (y2, m2, d2) (y, m, d).
Proof.
  rewrite <- afterOrEqual_dateLe. destruct (afterOrEqual _ _ _ _ _ _); split; congruence.
Qed.

(** The era-relative year does not overflow from the first era on. *)
Lemma eraYear_exact (y ey : Z) :
  GoInt.in_range y -> 1868 <= y -> 1868 <= ey <= 2019 -> y -! ey +! 1 = y - ey + 1.
Proof. intros Hy H1 H2. unwrap. reflexivity. Qed.

Ltac era_found e :=
  exists e; split;
  [ split; [ simpl; auto 10
           | split; [ simpl in *; lia
                    | intros e' Hin Hle; simpl in Hin;
                      repeat (destruct Hin as [<- | Hin]; [ simpl in *; lia | ]);
                      contradiction ] ]
  | cbn [era_name era_y]; rewrite eraYear_exact; [ reflexivity | assumption | simpl in *; lia | lia ] ].

(** C4: from 1868-10-23 on, japaneseEra returns the era of the table whose
    start date is the lexicographically greatest one not after the date,
    with era year = year - start year + 1; before that date it returns
    "Pre-Meiji" with the Gregorian year unchanged.  1989-01-07 is Showa 64,
    1989-01-08 Heisei 1, 2019-04-30 Heisei 31 and 2019-05-01 Reiwa 1. *)
Theorem japaneseEra_table :
  (forall y m d, GoInt.in_range y ->
     (Ref.dateLe (1868, 10, 23) (y, m, d) ->
      exists e, greatestEraBelow e y m d /\
                japaneseEra y m d = (era_name e, y - era_y e + 1)) /\
     (~ Ref.dateLe (1868, 10, 23) (y, m, d) ->
      japaneseEra y m d = ("Pre-Meiji"%string, y))) /\
  eras = [ mkEra "Reiwa" 2019 5 1; mkEra "Heisei" 1989 1 8; mkEra "Showa" 1926 12 25;
           mkEra "Taisho" 1912 7 30; mkEra "Meiji" 1868 10 23 ] /\
  japaneseEra 1989 1 7 = ("Showa"%string, 64) /\
  japaneseEra 1989 1 8 = ("Heisei"%string, 1) /\
  japaneseEra 2019 4 30 = ("Heisei"%string, 31) /\
  japaneseEra 2019 5 1 = ("Reiwa"%string, 1).
Proof.
  split; [ | repeat split; reflexivity ].
  intros y m d Hy.
  unfold japaneseEra, eras, greatestEraBelow. cbn [japaneseEra_scan era_y era_m era_d era_name].
  destruct (afterOrEqual y m d 2019 5 1) eqn:E1;
    [ apply afterOrEqual_dateLe in E1 | apply afterOrEqual_not_dateLe in E1 ].
  { split; [ intros _ | intros H; simpl in *; lia ]. era_found (mkEra "Reiwa" 2019 5 1). }
  destruct (afterOrEqual y m d 1989 1 8) eqn:E2;
    [ apply afterOrEqual_dateLe in E2 | apply afterOrEqual_not_dateLe in E2 ].
  { split; [ intros _ | intros H; simpl in *; lia ]. era_found (mkEra "Heisei" 1989 1 8). }
  destruct (afterOrEqual y m d 1926 12 25) eqn:E3;
    [ apply afterOrEqual_dateLe in E3 | apply afterOrEqual_not_dateLe in E3 ].
  { split; [ intros _ | intros H; simpl in *; lia ]. era_found (mkEra "Showa" 1926 12 25). }
  destruct (afterOrEqual y m d 1912 7 30) eqn:E4;
    [ apply afterOrEqual_dateLe in E4 | apply afterOrEqual_not_dateLe in E4 ].
  { split; [ intros _ | intros H; simpl in *; lia ]. era_found (mkEra "Taisho" 1912 7 30). }
  destruct (afterOrEqual y m d 1868 10 23) eqn:E5;
    [ apply afterOrEqual_dateLe in E5 | apply afterOrEqual_not_dateLe in E5 ].
  { split; [ intros _ | intros H; simpl in *; lia ]. era_found (mkEra "Meiji" 1868 10 23). }
  split; [ intros H; contradiction | reflexivity ].
Qed.

Lemma japaneseEra_table_witness :
  GoInt.in_range 1989 /\ Ref.dateLe (1868, 10, 23) (1989, 1, 7) /\
  exists e, greatestEraBelow e 1989 1 7 /\
            japaneseEra 1989 1 7 = (era_name e, 1989 - era_y e + 1).
Proof.
  assert (Hr : GoInt.in_range 1989)
    by (unfold GoInt.in_range, GoInt.min_int, GoInt.max_int; lia).
  assert (Hd : Ref.dateLe (1868, 10, 23) (1989, 1, 7)) by (simpl; lia).
  split; [ exact Hr | split; [ exact Hd | ] ].
  exact (proj1 (proj1 japaneseEra_table 1989 1 7 Hr) Hd).
Defined.

(** ** Julian Day Numbers *)

(** Up to the wrap-around of the sum, [gregorianToJDN] computes the
    formula: the year and month terms are exact, only the day count itself
    can leave the 64-bit range. *)
Lemma gregorianToJDN_wrapped (y m d : Z) :
  1 <= m <= 12 -> 1 <= d <= 31 -> GoInt.min_int <= y <= GoInt.max_int - 4800 ->
  gregorianToJDN y m d = GoInt.wrap (gregorianToJDN_Z y m d).
Proof.
  intros Hm Hd Hy.
  unfold gregorianToJDN, gregorianToJDN_Z. cbv zeta.
  assert (Ea : (14 -! m) /! 12 = (14 - m) ÷ 12) by (unwrap; reflexivity).
  rewrite Ea.
  assert (Ba : 0 <= (14 - m) ÷ 12 <= 1 /\ 0 <= m + 12 * ((14 - m) ÷ 12) - 3 <= 11)
    by (Z.to_euclidean_division_equations; lia).
  set (a := (14 - m) ÷ 12) in *. clearbody a.
  assert (Ey : y +! 4800 -! a = y + 4800 - a) by (unwrap; reflexivity).
  assert (Em : m +! 12 *! a -! 3 = m + 12 * a - 3) by (unwrap; reflexivity).
  rewrite Ey, Em.
  assert (By : GoInt.in_range (y + 4800 - a)) by int_bounds.
  set (y2 := y + 4800 - a) in *. set (m2 := m + 12 * a - 3) in *. clearbody y2 m2.
  assert (Ed : d +! (153 *! m2 +! 2) /! 5 = d + (153 * m2 + 2) ÷ 5) by (unwrap; reflexivity).
  assert (E4 : y2 /! 4 = y2 ÷ 4) by (unwrap; reflexivity).
  assert (E100 : y2 /! 100 = y2 ÷ 100) by (unwrap; reflexivity).
  assert (E400 : y2 /! 400 = y2 ÷ 400) by (unwrap; reflexivity).
  rewrite Ed, E4, E100, E400.
  unfold GoInt.add, GoInt.sub, GoInt.mul.
  set (s0 := d + (153 * m2 + 2) ÷ 5).
  rewrite (wrap_add_r s0 (365 * y2)).
  rewrite (wrap_add_l (s0 + 365 * y2) (y2 ÷ 4)).
  rewrite (wrap_sub_l (s0 + 365 * y2 + y2 ÷ 4) (y2 ÷ 100)).
  rewrite (wrap_add_l (s0 + 365 * y2 + y2 ÷ 4 - y2 ÷ 100) (y2 ÷ 400)).
  rewrite (wrap_sub_l (s0 + 365 * y2 + y2 ÷ 4 - y2 ÷ 100 + y2 ÷ 400) 32045).
  reflexivity.
Qed.

Lemma daysIn_bounds (y m : Z) : 28 <= Ref.daysIn y m <= 31.
Proof.
  unfold Ref.daysIn. destruct (Ref.isLeap y); destruct m as [|p|p]; try lia;
    do 4 (try destruct p as [p|p|]; try lia).
Qed.

Lemma validDate_bounds (y m d : Z) :
  Ref.validDate y m d = true -> 1 <= m <= 12 /\ 1 <= d <= Ref.daysIn y m /\ d <= 31.
Proof.
  unfold Ref.validDate. rewrite !andb_true_iff, !Z.leb_le.
  intros [[[H1 H2] H3] H4].
  pose proof (daysIn_bounds y m). lia.
Qed.

Lemma afterOrEqual_epoch (y m d : Z) :
  afterOrEqual y m d (-4800) 3 1 = true -> 1 <= d ->
  - 4800 <= y /\ (y = - 4800 -> 3 <= m).
Proof. rewrite afterOrEqual_dateLe. simpl. lia. Qed.

(** From 1 March -4800 on the truncated divisions of the code are floors. *)
Lemma gregorianToJDN_Z_floor (y m d : Z) :
  1 <= m <= 12 -> - 4800 <= y -> (y = - 4800 -> 3 <= m) ->
  gregorianToJDN_Z y m d = Ref.gregorianJDN y m d.
Proof.
  intros Hm Hy Hy'. unfold gregorianToJDN_Z, Ref.gregorianJDN. cbv zeta.
  assert (Ea : (14 - m) ÷ 12 = (14 - m) / 12) by (apply Z.quot_div_nonneg; lia).
  rewrite Ea.
  assert (Ba : (m <= 2 -> (14 - m) / 12 = 1) /\ (3 <= m -> (14 - m) / 12 = 0))
    by (Z.to_euclidean_division_equations; lia).
  set (a := (14 - m) / 12) in *.
  rewrite !Z.quot_div_nonneg by lia.
  reflexivity.
Qed.

(** A date from 1 March -4800 on whose day number fits the 64-bit range
    has a year far inside it, and a day number above -32045. *)
Lemma gregorianJDN_fits (y m d : Z) :
  1 <= m <= 12 -> 1 <= d -> - 4800 <= y -> (y = - 4800 -> 3 <= m) ->
  Ref.gregorianJDN y m d <= GoInt.max_int ->
  y <= GoInt.max_int - 4800 /\ - 32045 < Ref.gregorianJDN y m d.
Proof.
  unfold GoInt.max_int, Ref.gregorianJDN. intros Hm Hd Hy Hy'. cbv zeta. intros Hj.
  Z.to_euclidean_division_equations; lia.
Qed.

(** With the year term non-negative and the day number inside the 64-bit
    range, the code computes the floor formula. *)
Lemma gregorianToJDN_floor (y m d : Z) :
  1 <= m <= 12 -> 1 <= d <= 31 -> - 4800 <= y -> (y = - 4800 -> 3 <= m) ->
  Ref.gregorianJDN y m d <= GoInt.max_int ->
  gregorianToJDN y m d = Ref.gregorianJDN y m d.
Proof.
  intros Hm Hd Hlo Hlo' Hfit.
  destruct (gregorianJDN_fits y m d) as [Hy Hj]; try assumption; try lia.
  rewrite gregorianToJDN_wrapped by (unfold GoInt.min_int, GoInt.max_int in *; lia).
  rewrite gregorianToJDN_Z_floor by assumption.
  apply wrap_id. unfold GoInt.in_range, GoInt.min_int, GoInt.max_int in *. lia.
Qed.

(** C1 (as amended): for every calendar-valid proleptic Gregorian date
    from 1 March -4800 on (negative years from -4800 included) whose day
    number fits Go's 64-bit int, gregorianToJDN returns the astronomical
    Julian Day Number given by the formula with mathematical floors. *)
Theorem gregorianToJDN_astronomical (y m d : Z) :
  Ref.validDate y m d = true ->
  afterOrEqual y m d (-4800) 3 1 = true ->
  Ref.gregorianJDN y m d <= GoInt.max_int ->
  gregorianToJDN y m d = Ref.gregorianJDN y m d.
Proof.
  intros Hv Ha Hfit.
  destruct (validDate_bounds _ _ _ Hv) as (Hm & Hd & Hd').
  destruct (afterOrEqual_epoch _ _ _ Ha) as [Hlo Hlo']; [ lia | ].
  apply gregorianToJDN_floor; try assumption. lia.
Qed.

Lemma gregorianToJDN_astronomical_witness :
  Ref.validDate (-4713) 11 24 = true /\
  afterOrEqual (-4713) 11 24 (-4800) 3 1 = true /\
  Ref.gregorianJDN (-4713) 11 24 <= GoInt.max_int /\
  gregorianToJDN (-4713) 11 24 = 0.
Proof.
  assert (Hfit : Ref.gregorianJDN (-4713) 11 24 <= GoInt.max_int)
    by (vm_compute; discriminate).
  split; [ reflexivity | split; [ reflexivity | split; [ exact Hfit | ] ] ].
  rewrite (gregorianToJDN_astronomical (-4713) 11 24 eq_refl eq_refl Hfit).
  reflexivity.
Defined.

(** C1 as stated fails before 1 March -4800, where the year term is
    negative and Go's division truncates toward zero: on the valid date
    -4801-03-01 the code returns -32409, the floor formula -32410. *)
Lemma gregorianToJDN_astronomical_counterexample :
  Ref.validDate (-4801) 3 1 = true /\
  gregorianToJDN (-4801) 3 1 = -32409 /\
  Ref.gregorianJDN (-4801) 3 1 = -32410 /\
  gregorianToJDN (-4801) 3 1 <> Ref.gregorianJDN (-4801) 3 1.
Proof.
  assert (E1 : gregorianToJDN (-4801) 3 1 = -32409) by reflexivity.
  assert (E2 : Ref.gregorianJDN (-4801) 3 1 = -32410) by reflexivity.
  rewrite E1, E2.
  split; [ reflexivity | split; [ reflexivity | split; [ reflexivity | lia ] ] ].
Qed.

(** *** One day later *)

Lemma isLeap_true (y : Z) :
  Ref.isLeap y = true <-> (y mod 4 = 0 /\ y mod 100 <> 0) \/ y mod 400 = 0.
Proof.
  unfold Ref.isLeap.
  rewrite orb_true_iff, andb_true_iff, negb_true_iff, !Z.eqb_eq, Z.eqb_neq.
  reflexivity.
Qed.

Lemma isLeap_false (y : Z) :
  Ref.isLeap y = false <-> (y mod 4 <> 0 \/ y mod 100 = 0) /\ y mod 400 <> 0.
Proof.
  unfold Ref.isLeap.
  rewrite orb_false_iff, andb_false_iff, negb_false_iff, !Z.eqb_eq, !Z.eqb_neq.
  reflexivity.
Qed.

Lemma month_cases (m : Z) :
  1 <= m <= 12 ->
  m = 1 \/ m = 2 \/ m = 3 \/ m = 4 \/ m = 5 \/ m = 6 \/
  m = 7 \/ m = 8 \/ m = 9 \/ m = 10 \/ m = 11 \/ m = 12.
Proof. lia. Qed.

Ltac split_month H :=
  apply month_cases in H;
  repeat (destruct H as [H | H]; [ subst | ]); [ .. | subst ].

(** The floor formula counts days: the next calendar day has the next
    number, for every valid date of the proleptic calendar. *)
Lemma gregorianJDN_nextDay (y m d : Z) :
  Ref.validDate y m d = true ->
  let '(y', m', d') := Ref.nextDay y m d in
  Ref.gregorianJDN y' m' d' = Ref.gregorianJDN y m d + 1.
Proof.
  intros Hv. destruct (validDate_bounds _ _ _ Hv) as (Hm & Hd & _).
  unfold Ref.nextDay.
  split_month Hm; cbn [Ref.daysIn] in *;
    try (destruct (Ref.isLeap y) eqn:L;
         [ apply isLeap_true in L | apply isLeap_false in L ]);
    match goal with |- context [?a <? ?b] => destruct (Z.ltb_spec a b) end;
    cbn -[Z.add Z.mul Z.sub Z.div Ref.gregorianJDN];
    unfold Ref.gregorianJDN; cbv zeta;
    Z.to_euclidean_division_equations; lia.
Qed.

Lemma nextDay_bounds (y m d : Z) :
  Ref.validDate y m d = true ->
  let '(y', m', d') := Ref.nextDay y m d in
  1 <= m' <= 12 /\ 1 <= d' <= 31 /\ y <= y' <= y + 1 /\ (y' = y -> m <= m').
Proof.
  intros Hv. destruct (validDate_bounds _ _ _ Hv) as (Hm & Hd & Hd').
  pose proof (daysIn_bounds y m).
  unfold Ref.nextDay.
  destruct (Z.ltb_spec d (Ref.daysIn y m)); [ lia | ].
  destruct (Z.ltb_spec m 12); lia.
Qed.

(** C6 (as amended): from 1 March -4800 on, gregorianToJDN strictly
    increases from every calendar-valid date to the next calendar day, as
    long as the day number of the date is below the greatest 64-bit int. *)
Theorem gregorianToJDN_monotone (y m d : Z) :
  Ref.validDate y m d = true ->
  afterOrEqual y m d (-4800) 3 1 = true ->
  Ref.gregorianJDN y m d < GoInt.max_int ->
  let '(y', m', d') := Ref.nextDay y m d in
  gregorianToJDN y' m' d' > gregorianToJDN y m d.
Proof.
  intros Hv Ha Hfit.
  pose proof (gregorianJDN_nextDay _ _ _ Hv) as Hn.
  pose proof (nextDay_bounds _ _ _ Hv) as Hb.
  destruct (validDate_bounds _ _ _ Hv) as (Hm & Hd & Hd').
  destruct (afterOrEqual_epoch _ _ _ Ha) as [Hlo Hlo']; [lia|].
  rewrite (gregorianToJDN_floor y m d) by lia.
  destruct (Ref.nextDay y m d) as [[y' m'] d'].
  destruct Hb as (Hm' & Hd'' & Hy' & Hmm).
  rewrite (gregorianToJDN_floor y' m' d') by lia.
  lia.
Qed.

Lemma gregorianToJDN_monotone_witness :
  Ref.validDate 2024 2 29 = true /\
  afterOrEqual 2024 2 29 (-4800) 3 1 = true /\
  Ref.gregorianJDN 2024 2 29 < GoInt.max_int /\
  gregorianToJDN 2024 3 1 > gregorianToJDN 2024 2 29.
Proof.
  assert (Hfit : Ref.gregorianJDN 2024 2 29 < GoInt.max_int) by (vm_compute; reflexivity).
  split; [ reflexivity | split; [ reflexivity | split; [ exact Hfit | ] ] ].
  exact (gregorianToJDN_monotone 2024 2 29 eq_refl eq_refl Hfit).
Defined.

(** C6 as stated fails on the leap day of the year -4800: the next day,
    -4800-03-01, gets the same number. *)
Lemma gregorianToJDN_monotone_counterexample :
  Ref.validDate (-4800) 2 29 = true /\
  Ref.nextDay (-4800) 2 29 = (-4800, 3, 1) /\
  gregorianToJDN (-4800) 2 29 = -32044 /\
  gregorianToJDN (-4800) 3 1 = -32044 /\
  ~ gregorianToJDN (-4800) 3 1 > gregorianToJDN (-4800) 2 29.
Proof.
  split; [ reflexivity | split; [ reflexivity | ] ].
  assert (E1 : gregorianToJDN (-4800) 2 29 = -32044) by reflexivity.
  assert (E2 : gregorianToJDN (-4800) 3 1 = -32044) by reflexivity.
  rewrite E1, E2. split; [ reflexivity | split; [ reflexivity | lia ] ].
Qed.

(** *** Into the Julian calendar and back *)

(** From the epoch of the conversion on, [jdnToJulian] is inverted by the
    Julian-calendar day number formula, and its month and day are in range. *)
Lemma jdnToJulian_inverse (jdn : Z) :
  - 32082 <= jdn <= 10 ^ 18 ->
  let '(jy, jm, jd) := jdnToJulian jdn in
  Ref.julianToJDN jy jm jd = jdn /\ 1 <= jm <= 12 /\ 1 <= jd <= 31.
Proof.
  intros Hj. unfold jdnToJulian. cbv zeta.
  unwrap.
  rewrite !Z.quot_div_nonneg by int_bounds.
  set (c := jdn + 32082).
  assert (Hc : 0 <= c) by (unfold c; lia).
  set (d := (4 * c + 3) / 1461).
  set (e := c - 1461 * d / 4).
  assert (He : 0 <= e <= 365) by (unfold e, d; Z.to_euclidean_division_equations; lia).
  set (m := (5 * e + 2) / 153).
  assert (Hm : 0 <= m <= 11) by (unfold m; Z.to_euclidean_division_equations; lia).
  assert (Hq : (m <= 9 -> m / 10 = 0) /\ (10 <= m -> m / 10 = 1))
    by (Z.to_euclidean_division_equations; lia).
  unfold Ref.julianToJDN. cbv zeta.
  assert (Ha : (14 - (m + 3 - 12 * (m / 10))) / 12 = m / 10)
    by (Z.to_euclidean_division_equations; lia).
  rewrite Ha.
  replace (d - 4800 + m / 10 + 4800 - m / 10) with d by lia.
  replace (m + 3 - 12 * (m / 10) + 12 * (m / 10) - 3) with m by lia.
  split; [ | split ].
  - unfold e, c. Z.to_euclidean_division_equations; lia.
  - lia.
  - unfold m. Z.to_euclidean_division_equations; lia.
Qed.

Lemma gregorianJDN_range (y m d : Z) :
  1 <= m <= 12 -> 1 <= d <= 31 -> - 4800 < y <= 10 ^ 15 ->
  - 32082 <= Ref.gregorianJDN y m d <= 10 ^ 18.
Proof.
  unfold Ref.gregorianJDN. intros Hm Hd Hy. cbv zeta.
  Z.to_euclidean_division_equations; lia.
Qed.

(** C3: for every calendar-valid Gregorian date from 1800-01-01 to
    2200-12-31, converting its day number with jdnToJulian and mapping the
    Julian date back with the Julian-calendar day number formula gives the
    day number of gregorianToJDN again. *)
Theorem julian_roundtrip (y m d : Z) :
  Ref.validDate y m d = true ->
  Ref.dateLe (1800, 1, 1) (y, m, d) ->
  Ref.dateLe (y, m, d) (2200, 12, 31) ->
  let '(jy, jm, jd) := jdnToJulian (gregorianToJDN y m d) in
  Ref.julianToJDN jy jm jd = gregorianToJDN y m d.
Proof.
  intros Hv Hlo Hhi.
  destruct (validDate_bounds _ _ _ Hv) as (Hm & Hd & Hd').
  assert (Hy : 1800 <= y <= 2200) by (simpl in Hlo, Hhi; lia).
  pose proof (gregorianJDN_range y m d Hm) as Hr.
  rewrite gregorianToJDN_floor by (unfold GoInt.max_int; lia).
  pose proof (jdnToJulian_inverse (Ref.gregorianJDN y m d)) as Hinv.
  destruct (jdnToJulian (Ref.gregorianJDN y m d)) as [[jy jm] jd].
  apply Hinv. lia.
Qed.

Lemma julian_roundtrip_witness :
  Ref.validDate 2025 9 9 = true /\
  Ref.dateLe (1800, 1, 1) (2025, 9, 9) /\
  Ref.dateLe (2025, 9, 9) (2200, 12, 31) /\
  jdnToJulian (gregorianToJDN 2025 9 9) = (2025, 8, 27) /\
  Ref.julianToJDN 2025 8 27 = gregorianToJDN 2025 9 9.
Proof.
  assert (H1 : Ref.dateLe (1800, 1, 1) (2025, 9, 9)) by (simpl; lia).
  assert (H2 : Ref.dateLe (2025, 9, 9) (2200, 12, 31)) by (simpl; lia).
  split; [ reflexivity | split; [ exact H1 | split; [ exact H2 | split; [ reflexivity | ] ] ] ].
  exact (julian_roundtrip 2025 9 9 eq_refl H1 H2).
Defined.

(** ** The civil Hijri calendar *)

Lemma islamicCivilFromGregorian_cycle (y m d : Z) :
  islamicCivilFromGregorian y m d =
  let jdn := gregorianToJDN y m d in
  let l := jdn -! 1948440 +! 10632 in
  let n := (l -! 1) /! 10631 in
  let '(j, im, id) := islamicCycleDate (l -! 10631 *! n +! 354) in
  (30 *! n +! j -! 30, im, id).
Proof. reflexivity. Qed.

Lemma mul_in_range (a b A B : Z) :
  - A <= a <= A -> - B <= b <= B -> A * B <= GoInt.max_int ->
  GoInt.in_range (a * b) /\ - (A * B) <= a * b <= A * B.
Proof. unfold GoInt.in_range, GoInt.min_int, GoInt.max_int. intros. nia. Qed.

(** A wrapped product of two bounded factors. *)
Ltac unwrap_mul a b A B :=
  let H := fresh "Hmul" in
  assert (H : GoInt.in_range (a * b) /\ - (A * B) <= a * b <= A * B)
    by (apply mul_in_range; unfold GoInt.max_int; lia);
  rewrite (wrap_id (a * b)) by apply H;
  apply proj2 in H.

Lemma islamicCycleDate_exact (l : Z) :
  355 <= l <= 10985 -> islamicCycleDate l = islamicCycleDate_Z l.
Proof.
  intros Hl. unfold islamicCycleDate, islamicCycleDate_Z.
  (* the year of the cycle *)
  assert (Ej : ((10985 -! l) /! 5316) *! ((50 *! l) /! 17719)
               +! (l /! 5670) *! ((43 *! l) /! 15238)
               = ((10985 - l) ÷ 5316) * ((50 * l) ÷ 17719) + (l ÷ 5670) * ((43 * l) ÷ 15238)
               /\ 0 <= ((10985 - l) ÷ 5316) * ((50 * l) ÷ 17719)
                       + (l ÷ 5670) * ((43 * l) ÷ 15238) <= 124).
  { unwrap.
    set (q1 := (10985 - l) ÷ 5316).
    assert (Hq1 : 0 <= q1 <= 2) by (unfold q1; int_bounds).
    set (q2 := (50 * l) ÷ 17719).
    assert (Hq2 : 0 <= q2 <= 31) by (unfold q2; int_bounds).
    set (q3 := l ÷ 5670).
    assert (Hq3 : 0 <= q3 <= 2) by (unfold q3; int_bounds).
    set (q4 := (43 * l) ÷ 15238).
    assert (Hq4 : 0 <= q4 <= 31) by (unfold q4; int_bounds).
    clearbody q1 q2 q3 q4.
    assert (0 <= q1 * q2 <= 62) by nia.
    assert (0 <= q3 * q4 <= 62) by nia.
    unfold GoInt.add, GoInt.mul.
    unwrap_mul q1 q2 2 31. unwrap_mul q3 q4 2 31.
    unwrap. lia. }
  cbv zeta. destruct Ej as [Ej Hj]. rewrite Ej.
  set (j := (10985 - l) ÷ 5316 * (50 * l ÷ 17719) + l ÷ 5670 * (43 * l ÷ 15238)) in *.
  clearbody j. clear Ej.
  (* the day within the year *)
  assert (El : l -! ((30 -! j) /! 15) *! ((17719 *! j) /! 50)
                 -! (j /! 16) *! ((15238 *! j) /! 43) +! 29
               = l - ((30 - j) ÷ 15) * ((17719 * j) ÷ 50) - (j ÷ 16) * ((15238 * j) ÷ 43) + 29
               /\ - 1000000 <= l - ((30 - j) ÷ 15) * ((17719 * j) ÷ 50)
                                - (j ÷ 16) * ((15238 * j) ÷ 43) + 29 <= 1000000).
  { unwrap.
    set (p1 := (30 - j) ÷ 15).
    assert (Hp1 : - 7 <= p1 <= 7) by (unfold p1; int_bounds).
    set (p2 := (17719 * j) ÷ 50).
    assert (Hp2 : - 43944 <= p2 <= 43944) by (unfold p2; int_bounds).
    set (p3 := j ÷ 16).
    assert (Hp3 : - 7 <= p3 <= 7) by (unfold p3; int_bounds).
    set (p4 := (15238 * j) ÷ 43).
    assert (Hp4 : - 43944 <= p4 <= 43944) by (unfold p4; int_bounds).
    clearbody p1 p2 p3 p4.
    unfold GoInt.add, GoInt.sub, GoInt.mul.
    unwrap_mul p1 p2 7 43944. unwrap_mul p3 p4 7 43944.
    unwrap. lia. }
  destruct El as [El Hl']. rewrite El.
  set (l' := l - (30 - j) ÷ 15 * (17719 * j ÷ 50) - j ÷ 16 * (15238 * j ÷ 43) + 29) in *.
  clearbody l'. clear El.
  unwrap. reflexivity.
Qed.

Lemma all_from_spec (P : Z -> bool) (n : nat) :
  forall lo, all_from n lo P = true ->
  forall z, lo <= z < lo + Z.of_nat n -> P z = true.
Proof.
  induction n as [|k IH]; intros lo H z Hz.
  - simpl in Hz. lia.
  - cbn [all_from] in H. apply andb_true_iff in H as [H0 Hk].
    destruct (Z.eq_dec z lo) as [-> | Hne]; [ assumption | ].
    apply (IH (lo + 1) Hk). lia.
Qed.

Lemma islamicCycleDate_checked :
  all_from (Z.to_nat 10631) 355 islamicCycleDate_ok = true.
Proof. vm_compute. reflexivity. Qed.

Lemma islamicCycleDate_correct (l : Z) :
  355 <= l <= 10985 ->
  let '(j, im, id) := islamicCycleDate l in
  1 <= j <= 30 /\ 1 <= im <= 12 /\ 1 <= id <= 30 /\
  Ref.islamicToJDN j im id = l + 1948085.
Proof.
  intros Hl. rewrite islamicCycleDate_exact by assumption.
  pose proof (all_from_spec _ _ _ islamicCycleDate_checked l) as H.
  unfold islamicCycleDate_ok in H.
  destruct (islamicCycleDate_Z l) as [[j im] id].
  rewrite !andb_true_iff, !Z.leb_le, Z.eqb_eq in H.
  rewrite Z2Nat.id in H by lia. lia.
Qed.

(** Whole 30-year cycles shift the Hijri day number by 10631 days each. *)
Lemma islamicToJDN_cycles (k j im id : Z) :
  Ref.islamicToJDN (30 * k + j) im id = 10631 * k + Ref.islamicToJDN j im id.
Proof.
  unfold Ref.islamicToJDN.
  replace (11 * (30 * k + j) + 3) with (11 * j + 3 + (11 * k) * 30) by lia.
  rewrite Z.div_add by lia. lia.
Qed.

(** C7: for every calendar-valid Gregorian date whose day number is at
    least 1948440, islamicCivilFromGregorian returns a month from 1 to 12
    and a day from 1 to 30, and the civil Hijri day number formula maps the
    returned date back to gregorianToJDN of the Gregorian date. *)
Theorem islamicCivil_tabular (y m d : Z) :
  Ref.validDate y m d = true ->
  1948440 <= gregorianToJDN y m d ->
  let '(iy, im, id) := islamicCivilFromGregorian y m d in
  1 <= im <= 12 /\ 1 <= id <= 30 /\
  Ref.islamicToJDN iy im id = gregorianToJDN y m d.
Proof.
  intros _ Hj. rewrite islamicCivilFromGregorian_cycle. cbv zeta.
  assert (R : GoInt.in_range (gregorianToJDN y m d)) by apply wrap_in_range.
  set (jdn := gregorianToJDN y m d) in *. clearbody jdn.
  assert (El : jdn -! 1948440 +! 10632 = jdn - 1937808) by (unwrap; lia).
  rewrite El.
  assert (En : (jdn - 1937808 -! 1) /! 10631 = (jdn - 1937809) / 10631).
  { unwrap. rewrite Z.quot_div_nonneg by lia. f_equal. lia. }
  rewrite En.
  set (n := (jdn - 1937809) / 10631).
  assert (Hn : 1 <= n <= 2 ^ 50 /\ 0 <= jdn - 1937809 - 10631 * n < 10631)
    by (unfold n; int_bounds).
  clearbody n.
  assert (El2 : jdn - 1937808 -! 10631 *! n +! 354 = jdn - 1937809 - 10631 * n + 355)
    by (unwrap; lia).
  rewrite El2.
  set (l := jdn - 1937809 - 10631 * n + 355).
  pose proof (islamicCycleDate_correct l) as Hc.
  destruct (islamicCycleDate l) as [[j im] id].
  destruct Hc as (Hjr & Him & Hid & Hback); [ unfold l; lia | ].
  assert (Ey : 30 *! n +! j -! 30 = 30 * (n - 1) + j) by (unwrap; lia).
  rewrite Ey, islamicToJDN_cycles, Hback. unfold l. lia.
Qed.

Lemma islamicCivil_tabular_witness :
  Ref.validDate 2025 9 9 = true /\
  1948440 <= gregorianToJDN 2025 9 9 /\
  islamicCivilFromGregorian 2025 9 9 = (1447, 3, 16) /\
  Ref.islamicToJDN 1447 3 16 = gregorianToJDN 2025 9 9.
Proof.
  assert (H : 1948440 <= gregorianToJDN 2025 9 9) by (vm_compute; discriminate).
  split; [ reflexivity | split; [ exact H | split; [ reflexivity | ] ] ].
  exact (proj2 (proj2 (islamicCivil_tabular 2025 9 9 eq_refl H))).
Defined.

(** ** The calendar of the time package *)

Lemma isLeap_Ref (y : Z) : isLeap y = Ref.isLeap y.
Proof.
  unfold isLeap, Ref.isLeap.
  assert (E : forall k, 0 < k -> (Z.rem y k =? 0) = (y mod k =? 0)).
  { intros k Hk. destruct (Z.eqb_spec (Z.rem y k) 0), (Z.eqb_spec (y mod k) 0);
      try reflexivity; exfalso; Z.to_euclidean_division_equations; nia. }
  rewrite !E by lia.
  destruct (Z.eqb_spec (y mod 4) 0), (Z.eqb_spec (y mod 100) 0),
    (Z.eqb_spec (y mod 400) 0); try reflexivity; exfalso;
    Z.to_euclidean_division_equations; lia.
Qed.

(** The year found by cutting cycles, its first day and the bound of the
    day of the year. *)
Lemma yearAndYday_spec (z : Z) :
  let '(y, yd) := yearAndYday z in
  daysSinceEpoch y + yd = z + unixEpochDays /\
  0 <= yd <= (if Ref.isLeap y then 365 else 364).
Proof.
  unfold yearAndYday. cbv zeta.
  set (d0 := z + unixEpochDays). clearbody d0.
  set (n400 := d0 / 146097).
  assert (H1 : 0 <= d0 - 146097 * n400 < 146097)
    by (unfold n400; Z.to_euclidean_division_equations; lia).
  set (d1 := d0 - 146097 * n400) in *.
  set (n100 := d1 / 36524 - d1 / 36524 / 4).
  assert (H2 : 0 <= n100 <= 3 /\ 0 <= d1 - 36524 * n100 <= 36524 /\
               (n100 < 3 -> d1 - 36524 * n100 < 36524))
    by (unfold n100; Z.to_euclidean_division_equations; lia).
  set (d2 := d1 - 36524 * n100) in *.
  set (n4 := d2 / 1461).
  assert (H3 : 0 <= n4 <= 24 /\ 0 <= d2 - 1461 * n4 <= 1460 /\
               (n4 = 24 -> n100 < 3 -> d2 - 1461 * n4 < 1460))
    by (unfold n4; Z.to_euclidean_division_equations; lia).
  set (d3 := d2 - 1461 * n4) in *.
  set (n1 := d3 / 365 - d3 / 365 / 4).
  assert (H4 : 0 <= n1 <= 3 /\ 0 <= d3 - 365 * n1 <= 365 /\
               (n1 < 3 -> d3 - 365 * n1 < 365) /\
               (d3 < 1460 -> d3 - 365 * n1 < 365))
    by (unfold n1; Z.to_euclidean_division_equations; lia).
  set (yd := d3 - 365 * n1) in *.
  clearbody n400 n100 n4 n1.
  split.
  - unfold daysSinceEpoch. cbv zeta.
    replace (1 + 400 * n400 + 100 * n100 + 4 * n4 + n1 - 1)
      with (400 * n400 + 100 * n100 + 4 * n4 + n1) by lia.
    assert (E400 : (400 * n400 + 100 * n100 + 4 * n4 + n1) / 400 = n400)
      by (Z.to_euclidean_division_equations; lia).
    rewrite E400.
    replace (400 * n400 + 100 * n100 + 4 * n4 + n1 - 400 * n400)
      with (100 * n100 + 4 * n4 + n1) by lia.
    assert (E100 : (100 * n100 + 4 * n4 + n1) / 100 = n100)
      by (Z.to_euclidean_division_equations; lia).
    rewrite E100.
    replace (100 * n100 + 4 * n4 + n1 - 100 * n100) with (4 * n4 + n1) by lia.
    assert (E4 : (4 * n4 + n1) / 4 = n4)
      by (Z.to_euclidean_division_equations; lia).
    rewrite E4. unfold yd, d3, d2, d1. lia.
  - destruct (Ref.isLeap _) eqn:L; [ lia | ].
    apply isLeap_false in L.
    assert (n1 < 3 \/ (n1 = 3 /\ n4 = 24 /\ n100 < 3))
      by (Z.to_euclidean_division_equations; lia).
    lia.
Qed.

Lemma monthAndDay_checked :
  all_from 366 0 (monthAndDay_ok true) = true /\
  all_from 365 0 (monthAndDay_ok false) = true.
Proof. split; vm_compute; reflexivity. Qed.

Lemma monthAndDay_spec (leap : bool) (yd : Z) :
  0 <= yd <= (if leap then 365 else 364) ->
  let '(m, d) := monthAndDay leap yd in
  1 <= m <= 12 /\ 1 <= d <= monthLength leap m /\
  daysBefore (m - 1) + (if leap && (3 <=? m) then 1 else 0) + (d - 1) = yd.
Proof.
  intros H.
  assert (Hok : monthAndDay_ok leap yd = true).
  { destruct monthAndDay_checked as [Ht Hf].
    destruct leap; [ apply (all_from_spec _ _ _ Ht) | apply (all_from_spec _ _ _ Hf) ]; lia. }
  unfold monthAndDay_ok in Hok.
  destruct (monthAndDay leap yd) as [m d].
  rewrite !andb_true_iff, !Z.leb_le, Z.eqb_eq in Hok. lia.
Qed.

(** Every day count has a calendar-valid date, and [daysFromCivil] maps the
    date back to the day count. *)
Lemma civilFromDays_spec (z : Z) :
  let '(y, m, d) := civilFromDays z in
  Ref.validDate y m d = true /\ daysFromCivil y m d = z.
Proof.
  unfold civilFromDays.
  pose proof (yearAndYday_spec z) as Hy.
  destruct (yearAndYday z) as [y yd]. destruct Hy as [Hy Hyd].
  rewrite isLeap_Ref.
  pose proof (monthAndDay_spec (Ref.isLeap y) yd Hyd) as Hm.
  destruct (monthAndDay (Ref.isLeap y) yd) as [m d].
  destruct Hm as (Hm & Hd & Hback).
  split.
  - unfold Ref.validDate.
    change (Ref.daysIn y m) with (monthLength (Ref.isLeap y) m).
    rewrite !andb_true_iff, !Z.leb_le. lia.
  - unfold daysFromCivil. rewrite isLeap_Ref. lia.
Qed.

Lemma civilFromDays_inj (z1 z2 : Z) :
  civilFromDays z1 = civilFromDays z2 -> z1 = z2.
Proof.
  intros E.
  pose proof (civilFromDays_spec z1) as H1.
  pose proof (civilFromDays_spec z2) as H2.
  rewrite E in H1. destruct (civilFromDays z2) as [[y m] d].
  destruct H1 as [_ H1], H2 as [_ H2]. congruence.
Qed.

(** The date read from a time value is always calendar-valid. *)
Lemma time_date_valid (t : Time) : Ref.validDate (Year t) (Month t) (Day t) = true.
Proof.
  unfold Year, Month, Day.
  pose proof (civilFromDays_spec (localDays t)) as H.
  destruct (civilFromDays (localDays t)) as [[y m] d]. apply H.
Qed.

(** Two time values with the same date are on the same local day. *)
Lemma same_date_same_day (t1 t2 : Time) :
  Year t1 = Year t2 -> Month t1 = Month t2 -> Day t1 = Day t2 ->
  localDays t1 = localDays t2.
Proof.
  unfold Year, Month, Day. intros Hy Hm Hd.
  apply civilFromDays_inj.
  destruct (civilFromDays (localDays t1)) as [[y1 m1] d1],
           (civilFromDays (localDays t2)) as [[y2 m2] d2].
  simpl in *. congruence.
Qed.

(** ** The rendering dispatch *)

Lemma eqb_not_in (s x : string) (l : list string) :
  ~ In s l -> In x l -> (s =? x)%string = false.
Proof.
  intros Hn Hin. destruct (String.eqb_spec s x) as [-> | ]; [ contradiction | reflexivity ].
Qed.

Lemma unsupported_style (style cal : string) (t : Time) :
  ~ In style supportedStyles ->
  FormatRequestDate style cal t = verboseCalendarSentence cal t.
Proof.
  intros Hn. unfold FormatRequestDate.
  rewrite !(eqb_not_in style _ supportedStyles) by (assumption || (simpl; auto 10)).
  reflexivity.
Qed.

Lemma unsupported_calendar (cal : string) (t : Time) :
  ~ In cal supportedCalendars ->
  verboseCalendarSentence cal t = commonEraSentence t.
Proof.
  intros Hn. unfold verboseCalendarSentence.
  rewrite !(eqb_not_in cal _ supportedCalendars) by (assumption || (simpl; auto 10)).
  reflexivity.
Qed.

(** C5: a style outside the five supported ones is rendered as the default
    style gce-verbose, a calendar outside the seven supported ones as the
    default calendar gregorian, and with both unsupported the result is
    the verbose sentence of the common era; the result is always a string,
    there is no error result. *)
Theorem unsupported_options_fall_back (style cal : string) (t : Time) :
  (~ In style supportedStyles ->
   FormatRequestDate style cal t = FormatRequestDate "gce-verbose" cal t) /\
  (~ In cal supportedCalendars ->
   FormatRequestDate style cal t = FormatRequestDate style "gregorian" t) /\
  (~ In style supportedStyles -> ~ In cal supportedCalendars ->
   FormatRequestDate style cal t = commonEraSentence t).
Proof.
  split; [ | split ].
  - intros Hs. rewrite unsupported_style by assumption. reflexivity.
  - intros Hc. unfold FormatRequestDate.
    rewrite (unsupported_calendar cal) by assumption.
    repeat (destruct (_ =? _)%string; [ reflexivity | ]); reflexivity.
  - intros Hs Hc. rewrite unsupported_style, unsupported_calendar by assumption.
    reflexivity.
Qed.

Lemma not_in_strings (s : string) (l : list string) :
  forallb (fun x => negb (s =? x)%string) l = true -> ~ In s l.
Proof.
  rewrite forallb_forall. intros H Hin. specialize (H s Hin).
  rewrite String.eqb_refl in H. discriminate.
Qed.

Lemma unsupported_options_fall_back_witness :
  ~ In "roman"%string supportedStyles /\
  ~ In "mayan"%string supportedCalendars /\
  FormatRequestDate "roman" "mayan" sampleTime
  = "This request was made on Tuesday, September 9th of the year 2025 of the common era."%string.
Proof.
  assert (Hs : ~ In "roman"%string supportedStyles) by (apply not_in_strings; reflexivity).
  assert (Hc : ~ In "mayan"%string supportedCalendars) by (apply not_in_strings; reflexivity).
  split; [ exact Hs | split; [ exact Hc | ] ].
  rewrite (proj2 (proj2 (unsupported_options_fall_back "roman" "mayan" sampleTime)) Hs Hc).
  reflexivity.
Defined.

(** C9: the styles iso-date, rfc3339, unix and iso-week render every time
    value to the same string under any two calendar settings; every other
    style is rendered by the verbose sentence, the only reader of the
    calendar setting. *)
Theorem nonverbose_calendar_invariant (style c1 c2 : string) (t : Time) :
  (In style nonVerboseStyles ->
   FormatRequestDate style c1 t = FormatRequestDate style c2 t) /\
  (~ In style nonVerboseStyles ->
   FormatRequestDate style c1 t = verboseCalendarSentence c1 t).
Proof.
  split.
  - intros Hin. simpl in Hin. unfold FormatRequestDate.
    repeat (destruct Hin as [<- | Hin];
            [ cbn [String.eqb Ascii.eqb Bool.eqb]; reflexivity | ]).
    contradiction.
  - intros Hn. unfold FormatRequestDate.
    rewrite !(eqb_not_in style _ nonVerboseStyles) by (assumption || (simpl; auto 10)).
    destruct (_ =? _)%string; reflexivity.
Qed.

Lemma nonverbose_calendar_invariant_witness :
  In "iso-week"%string nonVerboseStyles /\
  FormatRequestDate "iso-week" "gregorian" sampleTime = "2025-W37-2"%string /\
  FormatRequestDate "iso-week" "islamic" sampleTime = "2025-W37-2"%string.
Proof.
  assert (Hin : In "iso-week"%string nonVerboseStyles) by (simpl; auto 10).
  split; [ exact Hin | ].
  rewrite <- (proj1 (nonverbose_calendar_invariant "iso-week" "gregorian" "islamic" sampleTime) Hin).
  split; reflexivity.
Defined.

(** C10: FormatRequestDate depends on the calendar day of its input only:
    under every style and calendar setting, two time values with the same
    year, month and day are rendered to the same string, whatever their
    hours, minutes, seconds, nanoseconds and zone offsets. *)
Theorem FormatRequestDate_date_only (style cal : string) (t1 t2 : Time) :
  Year t1 = Year t2 -> Month t1 = Month t2 -> Day t1 = Day t2 ->
  FormatRequestDate style cal t1 = FormatRequestDate style cal t2.
Proof.
  intros Hy Hm Hd.
  pose proof (same_date_same_day t1 t2 Hy Hm Hd) as Hl.
  unfold FormatRequestDate, verboseCalendarSentence, formatISODate, ISOWeek, Weekday.
  rewrite Hy, Hm, Hd, Hl. reflexivity.
Qed.

Lemma FormatRequestDate_date_only_witness :
  Year sampleTime = Year sampleTime' /\ Month sampleTime = Month sampleTime' /\
  Day sampleTime = Day sampleTime' /\
  unixSec sampleTime <> unixSec sampleTime' /\
  FormatRequestDate "gce-verbose" "japanese" sampleTime
  = FormatRequestDate "gce-verbose" "japanese" sampleTime'.
Proof.
  assert (Hy : Year sampleTime = Year sampleTime') by reflexivity.
  assert (Hm : Month sampleTime = Month sampleTime') by reflexivity.
  assert (Hd : Day sampleTime = Day sampleTime') by reflexivity.
  split; [ exact Hy | split; [ exact Hm | split; [ exact Hd | split; [ discriminate | ] ] ] ].
  exact (FormatRequestDate_date_only "gce-verbose" "japanese" sampleTime sampleTime' Hy Hm Hd).
Defined.

(** ** Dates out of range *)

Lemma digitChar_digit (k : Z) :
  0 <= k <= 9 ->
  GoParse.isDigitChar (digitChar k) = true /\ GoParse.digitVal (digitChar k) = k.
Proof.
  intros H.
  assert (E : k = 0 \/ k = 1 \/ k = 2 \/ k = 3 \/ k = 4 \/ k = 5 \/ k = 6 \/ k = 7
              \/ k = 8 \/ k = 9) by lia.
  repeat (destruct E as [-> | E]; [ split; reflexivity | ]).
  subst k. split; reflexivity.
Qed.

Lemma getnum_twoDigits (n : Z) (s : string) :
  0 <= n <= 99 -> GoParse.getnum (twoDigits n ++ s) true = Some (n, s).
Proof.
  intros H. unfold twoDigits, GoParse.getnum. cbn [append].
  destruct (digitChar_digit (n / 10)) as [D1 V1];
    [ Z.to_euclidean_division_equations; lia | ].
  destruct (digitChar_digit (n mod 10)) as [D2 V2];
    [ Z.to_euclidean_division_equations; lia | ].
  rewrite D1, D2, V1, V2. do 2 f_equal.
  Z.to_euclidean_division_equations; lia.
Qed.

Lemma getyear_fourDigits (y : Z) (s : string) :
  0 <= y <= 9999 -> GoParse.getyear (fourDigits y ++ s) = Some (y, s).
Proof.
  intros H. unfold fourDigits, twoDigits, GoParse.getyear. cbn [append].
  destruct (digitChar_digit (y / 100 / 10)) as [D1 V1];
    [ Z.to_euclidean_division_equations; lia | ].
  destruct (digitChar_digit ((y / 100) mod 10)) as [D2 V2];
    [ Z.to_euclidean_division_equations; lia | ].
  destruct (digitChar_digit (y mod 100 / 10)) as [D3 V3];
    [ Z.to_euclidean_division_equations; lia | ].
  destruct (digitChar_digit ((y mod 100) mod 10)) as [D4 V4];
    [ Z.to_euclidean_division_equations; lia | ].
  rewrite D1, D2, D3, D4, V1, V2, V3, V4. cbn [andb]. do 2 f_equal.
  Z.to_euclidean_division_equations; lia.
Qed.

(** What [time.Parse] does with a text that starts with a date. *)
Lemma ParseDate_isoDateText (withZone : bool) (y m d : Z) (rest : string) :
  0 <= y <= 9999 -> 0 <= m <= 99 -> 0 <= d <= 99 ->
  GoParse.ParseDate withZone (isoDateText y m d ++ rest) =
  if (m <=? 0) || (12 <? m) then inr (GoParse.OutOfRange "month")
  else
    match (if withZone then GoParse.getzone rest else inl (0, rest)) with
    | inr failure => inr failure
    | inl (zoneOffset, value) =>
        if negb (value =? EmptyString)%string then inr GoParse.ExtraText
        else if (d <? 1) || (d >? GoParse.daysIn m y) then inr GoParse.DayOutOfRange
        else inl (mkTime (unixSec (Date y m d) - zoneOffset) 0 zoneOffset)
    end.
Proof.
  intros Hy Hm Hd. unfold GoParse.ParseDate.
  change (isoDateText y m d ++ rest)%string
    with (fourDigits y ++ "-" ++ twoDigits m ++ "-" ++ twoDigits d ++ rest)%string.
  rewrite getyear_fourDigits by assumption.
  cbn [append Vies.stripPrefix Ascii.eqb Bool.eqb].
  rewrite getnum_twoDigits by assumption.
  destruct ((m <=? 0) || (12 <? m)); [ reflexivity | ].
  cbn [append Vies.stripPrefix Ascii.eqb Bool.eqb].
  rewrite getnum_twoDigits by assumption. reflexivity.
Qed.

Lemma daysIn_Ref (y m : Z) : 1 <= m <= 12 -> GoParse.daysIn m y = Ref.daysIn y m.
Proof.
  intros H. unfold GoParse.daysIn. rewrite isLeap_Ref.
  assert (E : m = 1 \/ m = 2 \/ m = 3 \/ m = 4 \/ m = 5 \/ m = 6 \/ m = 7 \/ m = 8
              \/ m = 9 \/ m = 10 \/ m = 11 \/ m = 12) by lia.
  repeat (destruct E as [-> | E]; [ cbn; destruct (Ref.isLeap y); reflexivity | ]).
  subst m. cbn; destruct (Ref.isLeap y); reflexivity.
Qed.

(** The day test of [time.Parse] is the validity of the date. *)
Lemma day_test_validDate (y m d : Z) :
  ((m <=? 0) || (12 <? m)) = false ->
  ((d <? 1) || (d >? GoParse.daysIn m y)) = negb (Ref.validDate y m d).
Proof.
  intros Hm. apply orb_false_iff in Hm. destruct Hm as [H1 H2].
  apply Z.leb_gt in H1. apply Z.ltb_ge in H2.
  rewrite daysIn_Ref by lia. unfold Ref.validDate.
  rewrite Z.gtb_ltb.
  destruct (Z.leb_spec 1 m), (Z.leb_spec m 12), (Z.ltb_spec d 1), (Z.leb_spec 1 d),
    (Z.ltb_spec (Ref.daysIn y m) d), (Z.leb_spec d (Ref.daysIn y m));
    try reflexivity; exfalso; lia.
Qed.

(** The first day of a year, in closed form; years follow one another. *)
Lemma daysSinceEpoch_closed (y : Z) :
  daysSinceEpoch y = 365 * (y - 1) + (y - 1) / 4 - (y - 1) / 100 + (y - 1) / 400.
Proof.
  unfold daysSinceEpoch. cbv zeta. Z.to_euclidean_division_equations; lia.
Qed.

Lemma daysSinceEpoch_next (y : Z) :
  daysSinceEpoch (y + 1) = daysSinceEpoch y + (if Ref.isLeap y then 366 else 365).
Proof.
  rewrite !daysSinceEpoch_closed. unfold Ref.isLeap.
  replace (y + 1 - 1) with y by lia.
  destruct (Z.eqb_spec (y mod 4) 0), (Z.eqb_spec (y mod 100) 0),
    (Z.eqb_spec (y mod 400) 0); cbn [andb orb negb];
    Z.to_euclidean_division_equations; lia.
Qed.

Lemma daysSinceEpoch_lt (a b : Z) : a < b -> daysSinceEpoch a < daysSinceEpoch b.
Proof.
  intros H. rewrite !daysSinceEpoch_closed. Z.to_euclidean_division_equations; lia.
Qed.

(** The day of the year of a valid date. *)
Ltac month_terms :=
  repeat match goal with
  | |- context [daysBefore ?a] =>
      let v := eval vm_compute in (daysBefore a) in change (daysBefore a) with v
  | |- context [3 <=? ?a] =>
      let v := eval vm_compute in (3 <=? a) in change (3 <=? a) with v
  end;
  cbn [andb].

Lemma yday_bounds (y m d : Z) :
  Ref.validDate y m d = true ->
  0 <= daysBefore (m - 1) + (if Ref.isLeap y && (3 <=? m) then 1 else 0) + (d - 1)
    < (if Ref.isLeap y then 366 else 365).
Proof.
  intros Hv. destruct (validDate_bounds _ _ _ Hv) as (Hm & Hd & _).
  clear Hv. split_month Hm; cbn [Ref.daysIn] in Hd;
    destruct (Ref.isLeap y); month_terms; lia.
Qed.

Lemma yday_inj (leap : bool) (m d m' d' : Z) :
  1 <= m <= 12 -> 1 <= d <= monthLength leap m ->
  1 <= m' <= 12 -> 1 <= d' <= monthLength leap m' ->
  daysBefore (m - 1) + (if leap && (3 <=? m) then 1 else 0) + (d - 1) =
  daysBefore (m' - 1) + (if leap && (3 <=? m') then 1 else 0) + (d' - 1) ->
  m = m' /\ d = d'.
Proof.
  intros Hm Hd Hm' Hd'.
  split_month Hm; split_month Hm'; destruct leap;
    cbn [monthLength] in Hd, Hd'; month_terms; lia.
Qed.

(** A valid date is the date of its day count. *)
Lemma civilFromDays_daysFromCivil (y m d : Z) :
  Ref.validDate y m d = true -> civilFromDays (daysFromCivil y m d) = (y, m, d).
Proof.
  intros Hv.
  pose proof (civilFromDays_spec (daysFromCivil y m d)) as H.
  destruct (civilFromDays (daysFromCivil y m d)) as [[y' m'] d'].
  destruct H as [Hv' Hback].
  unfold daysFromCivil in Hback. rewrite !isLeap_Ref in Hback.
  pose proof (yday_bounds _ _ _ Hv) as B.
  pose proof (yday_bounds _ _ _ Hv') as B'.
  assert (Ey : y' = y).
  { destruct (Z.lt_trichotomy y' y) as [L | [L | L]]; [ exfalso | exact L | exfalso ].
    - assert (L' : y' + 1 = y \/ y' + 1 < y) by lia.
      pose proof (daysSinceEpoch_next y') as N.
      destruct L' as [L' | L'].
      + rewrite L' in N. lia.
      + apply daysSinceEpoch_lt in L'. lia.
    - assert (L' : y + 1 = y' \/ y + 1 < y') by lia.
      pose proof (daysSinceEpoch_next y) as N.
      destruct L' as [L' | L'].
      + rewrite L' in N. lia.
      + apply daysSinceEpoch_lt in L'. lia. }
  subst y'.
  pose proof (validDate_bounds _ _ _ Hv) as (Hm & Hd).
  pose proof (validDate_bounds _ _ _ Hv') as (Hm' & Hd').
  assert (E : m = m' /\ d = d').
  { apply (yday_inj (Ref.isLeap y)); try assumption;
      try (change (monthLength (Ref.isLeap y) m) with (Ref.daysIn y m));
      try (change (monthLength (Ref.isLeap y) m') with (Ref.daysIn y m')); lia. }
  destruct E as [-> ->]. reflexivity.
Qed.

Lemma digits_checked :
  all_from 100 0 twoDigits_ok = true /\ all_from (Z.to_nat 10000) 0 fourDigits_ok = true.
Proof. split; vm_compute; reflexivity. Qed.

(** The iso-date rendering of a date within the years 0..9999. *)
Lemma formatISODate_isoDateText (t : Time) :
  0 <= Year t <= 9999 ->
  formatISODate t = isoDateText (Year t) (Month t) (Day t).
Proof.
  intros Hy.
  pose proof (time_date_valid t) as Hv.
  destruct (validDate_bounds _ _ _ Hv) as (Hm & Hd & Hd').
  destruct digits_checked as [H2 H4].
  assert (Ey : appendInt 4 (Year t) = fourDigits (Year t)).
  { apply String.eqb_eq. apply (all_from_spec _ _ _ H4). lia. }
  assert (Em : appendInt 2 (Month t) = twoDigits (Month t)).
  { apply String.eqb_eq. apply (all_from_spec _ _ _ H2). lia. }
  assert (Ed : appendInt 2 (Day t) = twoDigits (Day t)).
  { apply String.eqb_eq. apply (all_from_spec _ _ _ H2). lia. }
  unfold formatISODate, isoDateText. rewrite Ey, Em, Ed. reflexivity.
Qed.

(** The date of a time value that [time.Parse] builds from a valid date. *)
Lemma parsed_date (y m d zoneOffset : Z) :
  Ref.validDate y m d = true ->
  civilFromDays (localDays (mkTime (unixSec (Date y m d) - zoneOffset) 0 zoneOffset))
  = (y, m, d).
Proof.
  intros Hv. destruct (validDate_bounds _ _ _ Hv) as (Hm & _).
  unfold Date, localDays. cbn [unixSec GoTime.zoneOffset].
  assert (E1 : (m - 1) / 12 = 0) by (Z.to_euclidean_division_equations; lia).
  assert (E2 : (m - 1) mod 12 + 1 = m) by (Z.to_euclidean_division_equations; lia).
  rewrite E1, E2, Z.add_0_r.
  replace (86400 * daysFromCivil y m d - zoneOffset + zoneOffset)
    with (daysFromCivil y m d * 86400) by lia.
  rewrite Z.div_mul by lia. apply civilFromDays_daysFromCivil, Hv.
Qed.

(** What the two attempts of [parseSOAPResponse] make of a text that
    starts with a date: a time value of that date when the date is valid
    and the rest is empty or a zone, a failure otherwise. *)
Lemma ParseDate_outcome (withZone : bool) (y m d : Z) (rest : string) :
  0 <= y <= 9999 -> 0 <= m <= 99 -> 0 <= d <= 99 ->
  match GoParse.ParseDate withZone (isoDateText y m d ++ rest) with
  | inl t =>
      Ref.validDate y m d = true /\ civilFromDays (localDays t) = (y, m, d)
  | inr _ => True
  end.
Proof.
  intros Hy Hm Hd. rewrite ParseDate_isoDateText by assumption.
  destruct ((m <=? 0) || (12 <? m)) eqn:Em; [ exact I | ].
  rewrite (day_test_validDate y m d Em).
  destruct (if withZone then GoParse.getzone rest else inl (0, rest))
    as [[zoneOffset value] | failure]; [ | exact I ].
  destruct (negb (value =? EmptyString)%string); [ exact I | ].
  destruct (Ref.validDate y m d) eqn:Hv; cbn [negb]; [ | exact I ].
  split; [ reflexivity | apply parsed_date, Hv ].
Qed.

Lemma ParseDate_invalid (withZone : bool) (y m d : Z) (rest : string) :
  0 <= y <= 9999 -> 0 <= m <= 99 -> 0 <= d <= 99 ->
  Ref.validDate y m d = false ->
  exists failure, GoParse.ParseDate withZone (isoDateText y m d ++ rest) = inr failure.
Proof.
  intros Hy Hm Hd Hv.
  pose proof (ParseDate_outcome withZone y m d rest Hy Hm Hd) as H.
  destruct (GoParse.ParseDate withZone (isoDateText y m d ++ rest)) as [t | failure].
  - destruct H as [H _]. congruence.
  - exists failure. reflexivity.
Qed.



Example request_date_read :
  parseSOAPResponse_requestDate failureKind "2025-09-09" = inl (mkTime 1757376000 0 0) /\
  parseSOAPResponse_requestDate failureKind "2025-09-09+02:00" = inl sampleTime'.
Proof. split; reflexivity. Qed.

Example request_date_refused :
  parseSOAPResponse_requestDate failureKind "2023-02-30" =
  inr (Vies.ServiceError
         (Vies.mkError Vies.ErrServiceError
            "Failed to parse request date '2023-02-30': cannot parse" EmptyString)) /\
  parseSOAPResponse_requestDate failureKind "2023-02-29+01:00" =
  inr (Vies.ServiceError
         (Vies.mkError Vies.ErrServiceError
            "Failed to parse request date '2023-02-29+01:00': day out of range" EmptyString)) /\
  parseSOAPResponse_requestDate failureKind "2025-13-01" =
  inr (Vies.ServiceError
         (Vies.mkError Vies.ErrServiceError
            "Failed to parse request date '2025-13-01': month out of range" EmptyString)).
Proof. repeat split. Qed.

(** ** The sample renderings of the specification *)

Example render_iso_date :
  FormatRequestDate "iso-date" "gregorian" sampleTime = "2025-09-09"%string.
Proof. reflexivity. Qed.

Example render_iso_week :
  FormatRequestDate "iso-week" "gregorian" sampleTime = "2025-W37-2"%string.
Proof. reflexivity. Qed.

Example render_rfc3339 :
  FormatRequestDate "rfc3339" "gregorian" sampleTime = "2025-09-09T00:00:00Z"%string.
Proof. reflexivity. Qed.

Example render_unix :
  FormatRequestDate "unix" "gregorian" (Date 1970 1 1) = "0"%string /\
  FormatRequestDate "unix" "gregorian" (Date 1969 12 31) = "-86400"%string.
Proof. split; reflexivity. Qed.

Example render_buddhist_minguo :
  FormatRequestDate "gce-verbose" "buddhist" sampleTime
  = "This request was made on Tuesday, September 9th of the year 2568 of the Buddhist Era."%string /\
  FormatRequestDate "gce-verbose" "minguo" sampleTime
  = "This request was made on Tuesday, September 9th of the year 114 of the Minguo calendar."%string.
Proof. split; reflexivity. Qed.

Example render_julian_islamic :
  FormatRequestDate "gce-verbose" "julian" sampleTime
  = "This request was made on Tuesday, August 27th of the year 2025 of the Julian calendar."%string /\
  FormatRequestDate "gce-verbose" "islamic" sampleTime
  = "This request was made on Tuesday, Rabi' al-awwal 16th in year 1447 AH of the Islamic (Hijri) calendar."%string.
Proof. split; vm_compute; reflexivity. Qed.

Example hebrew_threshold :
  hebrewYearApprox 2025 9 19 = 2025 + 3760 /\ hebrewYearApprox 2025 9 20 = 2025 + 3761.
Proof. split; reflexivity. Qed.

Example jdn_of_2000 : gregorianToJDN 2000 1 1 = 2451545.
Proof. reflexivity. Qed.

(** * Further properties of the package *)

(** ** Ordinal suffixes, Hebrew years and eras *)

(** X1: on every 64-bit day number ordinalSuffix follows the rule of the
    last two digits for non-negative numbers and gives "th" for every
    negative number, whose remainders Go leaves negative. *)
Theorem ordinalSuffix_all_ints (day : Z) :
  GoInt.in_range day ->
  ordinalSuffix day = if day <? 0 then "th"%string else Ref.ordinal day.
Proof.
  intros Hr. destruct (Z.ltb_spec day 0) as [Hneg | Hpos].
  - unfold ordinalSuffix.
    assert (E100 : day %! 100 = Z.rem day 100) by (unwrap; reflexivity).
    assert (E10 : day %! 10 = Z.rem day 10) by (unwrap; reflexivity).
    rewrite E100, E10.
    assert (H100 : Z.rem day 100 <= 0) by (Z.to_euclidean_division_equations; lia).
    assert (H10 : Z.rem day 10 <= 0) by (Z.to_euclidean_division_equations; lia).
    destruct (Z.eqb_spec (Z.rem day 100) 11); [ lia | ].
    destruct (Z.eqb_spec (Z.rem day 100) 12); [ lia | ].
    destruct (Z.eqb_spec (Z.rem day 100) 13); [ lia | ].
    destruct (Z.eqb_spec (Z.rem day 10) 1); [ lia | ].
    destruct (Z.eqb_spec (Z.rem day 10) 2); [ lia | ].
    destruct (Z.eqb_spec (Z.rem day 10) 3); [ lia | ].
    reflexivity.
  - apply ordinalSuffix_nonneg. unfold GoInt.in_range in Hr. lia.
Qed.

Lemma ordinalSuffix_all_ints_witness :
  GoInt.in_range (-21) /\ ordinalSuffix (-21) = "th"%string.
Proof.
  assert (Hr : GoInt.in_range (-21))
    by (unfold GoInt.in_range, GoInt.min_int, GoInt.max_int; lia).
  split; [ exact Hr | ].
  exact (ordinalSuffix_all_ints (-21) Hr).
Defined.

(** X2: hebrewYearApprox adds 3761 from 20 September of the year on and
    3760 before it, and never decreases when the date advances (for years
    whose result fits the 64-bit range). *)
Theorem hebrewYearApprox_monotone (y1 m1 d1 y2 m2 d2 : Z) :
  GoInt.min_int <= y1 -> y2 <= GoInt.max_int - 3761 ->
  Ref.dateLe (y1, m1, d1) (y2, m2, d2) ->
  hebrewYearApprox y1 m1 d1
  = y1 + (if afterOrEqual y1 m1 d1 y1 9 20 then 3761 else 3760) /\
  hebrewYearApprox y1 m1 d1 <= hebrewYearApprox y2 m2 d2.
Proof.
  intros H1 H2 Hle. simpl in Hle.
  assert (E : forall y m d, GoInt.min_int <= y <= GoInt.max_int - 3761 ->
            hebrewYearApprox y m d
            = y + (if afterOrEqual y m d y 9 20 then 3761 else 3760)).
  { intros y m d Hy. unfold hebrewYearApprox, afterOrEqual.
    rewrite Z.eqb_refl. cbn [negb].
    rewrite !Z.gtb_ltb, Z.geb_leb.
    destruct (Z.ltb_spec 9 m);
      [ destruct (Z.eqb_spec m 9); [ lia | cbn [negb]; unwrap; reflexivity ] | ].
    destruct (Z.ltb_spec m 9);
      [ destruct (Z.eqb_spec m 9); [ lia | cbn [negb]; unwrap; reflexivity ] | ].
    destruct (Z.eqb_spec m 9); [ | lia ]. cbn [negb].
    destruct (Z.leb_spec 20 d); unwrap; reflexivity. }
  rewrite !E by lia. split; [ reflexivity | ].
  destruct (afterOrEqual y1 m1 d1 y1 9 20) eqn:A1;
    destruct (afterOrEqual y2 m2 d2 y2 9 20) eqn:A2; try lia.
  apply afterOrEqual_dateLe in A1. apply afterOrEqual_not_dateLe in A2.
  simpl in A1, A2. lia.
Qed.

Lemma hebrewYearApprox_monotone_witness :
  GoInt.min_int <= 2025 /\ 2025 <= GoInt.max_int - 3761 /\
  Ref.dateLe (2025, 9, 19) (2025, 9, 20) /\
  hebrewYearApprox 2025 9 19 <= hebrewYearApprox 2025 9 20.
Proof.
  assert (H1 : GoInt.min_int <= 2025) by (unfold GoInt.min_int; lia).
  assert (H2 : 2025 <= GoInt.max_int - 3761) by (unfold GoInt.max_int; lia).
  assert (H3 : Ref.dateLe (2025, 9, 19) (2025, 9, 20)) by (simpl; lia).
  split; [ exact H1 | split; [ exact H2 | split; [ exact H3 | ] ] ].
  exact (proj2 (hebrewYearApprox_monotone 2025 9 19 2025 9 20 H1 H2 H3)).
Defined.

Ltac era_year_step E :=
  apply afterOrEqual_dateLe in E;
  rewrite eraYear_exact by (assumption || (simpl in *; lia));
  split; [ simpl in *; lia | simpl; auto 10 ].

(** X3: from 1868-10-23 on the era year of japaneseEra is at least 1 and
    at most the years since 1868, and the era is one of the five of the
    table, never the sentinel. *)
Theorem japaneseEra_year_positive (y m d : Z) :
  GoInt.in_range y ->
  Ref.dateLe (1868, 10, 23) (y, m, d) ->
  let '(name, eraYear) := japaneseEra y m d in
  1 <= eraYear <= y - 1867 /\ In name (map era_name eras).
Proof.
  intros Hy Hle. unfold japaneseEra, eras.
  cbn [japaneseEra_scan era_y era_m era_d era_name map].
  assert (Hy' : 1868 <= y) by (simpl in Hle; lia).
  destruct (afterOrEqual y m d 2019 5 1) eqn:E1; [ era_year_step E1 | ].
  destruct (afterOrEqual y m d 1989 1 8) eqn:E2; [ era_year_step E2 | ].
  destruct (afterOrEqual y m d 1926 12 25) eqn:E3; [ era_year_step E3 | ].
  destruct (afterOrEqual y m d 1912 7 30) eqn:E4; [ era_year_step E4 | ].
  destruct (afterOrEqual y m d 1868 10 23) eqn:E5; [ era_year_step E5 | ].
  apply afterOrEqual_not_dateLe in E5. contradiction.
Qed.

Lemma japaneseEra_year_positive_witness :
  GoInt.in_range 1926 /\ Ref.dateLe (1868, 10, 23) (1926, 12, 25) /\
  japaneseEra 1926 12 25 = ("Showa"%string, 1) /\ 1 <= 1 <= 1926 - 1867.
Proof.
  assert (Hr : GoInt.in_range 1926)
    by (unfold GoInt.in_range, GoInt.min_int, GoInt.max_int; lia).
  assert (Hd : Ref.dateLe (1868, 10, 23) (1926, 12, 25)) by (simpl; lia).
  split; [ exact Hr | split; [ exact Hd | split; [ reflexivity | ] ] ].
  exact (proj1 (japaneseEra_year_positive 1926 12 25 Hr Hd)).
Defined.

(** ** The Julian calendar *)

(** The date of [jdnToJulian] is a date of the Julian calendar. *)
Lemma jdnToJulian_valid (jdn : Z) :
  - 32082 <= jdn <= 10 ^ 18 ->
  let '(jy, jm, jd) := jdnToJulian jdn in validJulianDate jy jm jd = true.
Proof.
  intros Hj. unfold jdnToJulian. cbv zeta.
  unwrap.
  rewrite !Z.quot_div_nonneg by int_bounds.
  set (c := jdn + 32082).
  assert (Hc : 0 <= c) by (unfold c; lia).
  clearbody c.
  remember ((4 * c + 3) / 1461) as d eqn:Ed.
  remember (c - 1461 * d / 4) as e eqn:Ee.
  assert (He : 0 <= e <= 365 /\ (e = 365 -> d mod 4 = 3))
    by (subst e d; Z.to_euclidean_division_equations; lia).
  remember ((5 * e + 2) / 153) as m eqn:Em.
  assert (Hm : 0 <= m <= 11) by (subst m; Z.to_euclidean_division_equations; lia).
  assert (Hq : (m <= 9 /\ m / 10 = 0) \/ (10 <= m /\ m / 10 = 1))
    by (Z.to_euclidean_division_equations; lia).
  remember (m + 3 - 12 * (m / 10)) as month eqn:Emonth.
  remember (d - 4800 + m / 10) as year eqn:Eyear.
  remember (e - (153 * m + 2) / 5 + 1) as day eqn:Eday.
  assert (Hmonth : 1 <= month <= 12) by lia.
  unfold validJulianDate.
  assert (Hday : 1 <= day <= julianDaysIn year month).
  { clear Ed Ee Hc Hj jdn c.
    apply month_cases in Hmonth.
    repeat (destruct Hmonth as [Hk | Hmonth]; [ rewrite Hk in * | ]);
      try rewrite Hmonth in *;
      cbn [julianDaysIn]; unfold julianLeap;
      try (destruct (Z.eqb_spec (year mod 4) 0)).
      all: Z.to_euclidean_division_equations; lia. }
  rewrite !andb_true_iff, !Z.leb_le. lia.
Qed.

(** X4: for every calendar-valid Gregorian date from 1 March -4800 on
    (day number up to 10^18) julianFromGregorian gives a calendar-valid
    date of the Julian calendar: a month from 1 to 12 and a day within
    that month, February having 29 days in the years divisible by 4. *)
Theorem julianFromGregorian_valid (y m d : Z) :
  Ref.validDate y m d = true ->
  afterOrEqual y m d (-4800) 3 1 = true ->
  Ref.gregorianJDN y m d <= 10 ^ 18 ->
  let '(jy, jm, jd) := julianFromGregorian y m d in
  validJulianDate jy jm jd = true.
Proof.
  intros Hv Ha Hfit. unfold julianFromGregorian.
  destruct (validDate_bounds _ _ _ Hv) as (Hm & Hd & Hd').
  destruct (afterOrEqual_epoch _ _ _ Ha) as [Hlo Hlo']; [ lia | ].
  rewrite gregorianToJDN_floor by (unfold GoInt.max_int; lia).
  destruct (gregorianJDN_fits y m d) as [_ Hj]; try assumption; try lia.
  { unfold GoInt.max_int; lia. }
  apply jdnToJulian_valid. lia.
Qed.

Lemma julianFromGregorian_valid_witness :
  Ref.validDate 2024 3 13 = true /\
  afterOrEqual 2024 3 13 (-4800) 3 1 = true /\
  Ref.gregorianJDN 2024 3 13 <= 10 ^ 18 /\
  julianFromGregorian 2024 3 13 = (2024, 2, 29) /\
  validJulianDate 2024 2 29 = true.
Proof.
  assert (Hfit : Ref.gregorianJDN 2024 3 13 <= 10 ^ 18) by (vm_compute; discriminate).
  split; [ reflexivity | split; [ reflexivity | split; [ exact Hfit | split; [ reflexivity | ] ] ] ].
  exact (julianFromGregorian_valid 2024 3 13 eq_refl eq_refl Hfit).
Defined.

(** Between the Julian leap days of 1900 and 2100 the Julian date, read
    as a Gregorian one, is the day 13 days earlier. *)
Lemma jdnToJulian_lag13 (jdn : Z) :
  2415093 <= jdn <= 2488141 ->
  let '(jy, jm, jd) := jdnToJulian jdn in
  Ref.gregorianJDN jy jm jd = jdn - 13.
Proof.
  intros Hj.
  pose proof (jdnToJulian_inverse jdn) as Hinv.
  revert Hinv. unfold jdnToJulian. cbv zeta.
  unwrap.
  rewrite !Z.quot_div_nonneg by int_bounds.
  set (c := jdn + 32082).
  remember ((4 * c + 3) / 1461) as d eqn:Ed.
  assert (Hd : 6700 <= d <= 6899) by (subst d; unfold c; Z.to_euclidean_division_equations; lia).
  remember (c - 1461 * d / 4) as e eqn:Ee.
  remember ((5 * e + 2) / 153) as m eqn:Em.
  intros Hinv. destruct Hinv as (Hinv & Hm & Hday); [ lia | ].
  unfold Ref.gregorianJDN. unfold Ref.julianToJDN in Hinv. cbv zeta in Hinv |- *.
  assert (He : 0 <= e <= 365) by (subst e d; unfold c; Z.to_euclidean_division_equations; lia).
  assert (Hm' : 0 <= m <= 11) by (subst m; Z.to_euclidean_division_equations; lia).
  assert (Hq : (m <= 9 /\ m / 10 = 0) \/ (10 <= m /\ m / 10 = 1))
    by (Z.to_euclidean_division_equations; lia).
  assert (Ha : (14 - (m + 3 - 12 * (m / 10))) / 12 = m / 10)
    by (Z.to_euclidean_division_equations; lia).
  rewrite Ha in Hinv |- *.
  replace (d - 4800 + m / 10 + 4800 - m / 10) with d in Hinv |- * by lia.
  assert (d / 100 - d / 400 = 51) by (Z.to_euclidean_division_equations; lia).
  lia.
Qed.

Lemma gregorianJDN_window (y m d : Z) :
  1 <= m <= 12 -> 1 <= d <= 31 ->
  Ref.dateLe (1900, 3, 14) (y, m, d) -> Ref.dateLe (y, m, d) (2100, 3, 13) ->
  2415093 <= Ref.gregorianJDN y m d <= 2488141.
Proof.
  intros Hm Hd Hlo Hhi. simpl in Hlo, Hhi.
  unfold Ref.gregorianJDN. cbv zeta.
  assert (Ba : (m <= 2 /\ (14 - m) / 12 = 1) \/ (3 <= m /\ (14 - m) / 12 = 0))
    by (Z.to_euclidean_division_equations; lia).
  set (a := (14 - m) / 12) in *. clearbody a.
  Z.to_euclidean_division_equations; lia.
Qed.

(** X5: for every calendar-valid Gregorian date from 1900-03-14 to
    2100-03-13 the Julian date of julianFromGregorian is 13 days behind:
    read as a Gregorian date it is the day 13 days before the input. *)
Theorem julian_lags_13_days (y m d : Z) :
  Ref.validDate y m d = true ->
  Ref.dateLe (1900, 3, 14) (y, m, d) -> Ref.dateLe (y, m, d) (2100, 3, 13) ->
  let '(jy, jm, jd) := julianFromGregorian y m d in
  Ref.gregorianJDN jy jm jd = gregorianToJDN y m d - 13.
Proof.
  intros Hv Hlo Hhi. unfold julianFromGregorian.
  destruct (validDate_bounds _ _ _ Hv) as (Hm & Hd & Hd').
  assert (Hw : 2415093 <= Ref.gregorianJDN y m d <= 2488141)
    by (apply gregorianJDN_window; try assumption; lia).
  assert (Hy : 1900 <= y <= 2100) by (simpl in Hlo, Hhi; lia).
  rewrite gregorianToJDN_floor by (unfold GoInt.max_int; lia).
  apply jdnToJulian_lag13. exact Hw.
Qed.

Lemma julian_lags_13_days_witness :
  Ref.validDate 2025 9 9 = true /\
  Ref.dateLe (1900, 3, 14) (2025, 9, 9) /\ Ref.dateLe (2025, 9, 9) (2100, 3, 13) /\
  julianFromGregorian 2025 9 9 = (2025, 8, 27) /\
  Ref.gregorianJDN 2025 8 27 = gregorianToJDN 2025 9 9 - 13.
Proof.
  assert (H1 : Ref.dateLe (1900, 3, 14) (2025, 9, 9)) by (simpl; lia).
  assert (H2 : Ref.dateLe (2025, 9, 9) (2100, 3, 13)) by (simpl; lia).
  split; [ reflexivity | split; [ exact H1 | split; [ exact H2 | split; [ reflexivity | ] ] ] ].
  exact (julian_lags_13_days 2025 9 9 eq_refl H1 H2).
Defined.

(** ** Texts *)

Lemma string_length_app (a b : string) :
  String.length (a ++ b) = (String.length a + String.length b)%nat.
Proof. induction a as [|c a IH]; simpl; [ reflexivity | rewrite IH; reflexivity ]. Qed.

Lemma string_app_assoc (a b c : string) : ((a ++ b) ++ c = a ++ (b ++ c))%string.
Proof. induction a as [|x a IH]; simpl; [ reflexivity | rewrite IH; reflexivity ]. Qed.

Lemma string_app_nil_r (a : string) : (a ++ EmptyString)%string = a.
Proof. induction a as [|x a IH]; simpl; [ reflexivity | rewrite IH; reflexivity ]. Qed.

(** ** The tabular Hijri calendar and the rendering at midnight *)

Lemma islamicLeap_cycle (k j : Z) : islamicLeap (30 * k + j) = islamicLeap j.
Proof.
  unfold islamicLeap.
  replace (11 * (30 * k + j) + 14) with (11 * j + 14 + (11 * k) * 30) by lia.
  rewrite Z_mod_plus_full. reflexivity.
Qed.

Lemma islamicCycleDate_valid_checked :
  all_from (Z.to_nat 10631) 355 islamicCycleDate_valid = true.
Proof. vm_compute. reflexivity. Qed.

(** The reduction of [islamicCivilFromGregorian] to a day of one cycle. *)
Lemma islamicCivil_reduction (y m d : Z) :
  1948440 <= gregorianToJDN y m d ->
  exists n l, 1 <= n /\ 355 <= l <= 10985 /\
    islamicCivilFromGregorian y m d =
    (let '(j, im, id) := islamicCycleDate l in (30 * (n - 1) + j, im, id)).
Proof.
  intros Hj. rewrite islamicCivilFromGregorian_cycle. cbv zeta.
  assert (R : GoInt.in_range (gregorianToJDN y m d)) by apply wrap_in_range.
  set (jdn := gregorianToJDN y m d) in *. clearbody jdn.
  assert (El : jdn -! 1948440 +! 10632 = jdn - 1937808) by (unwrap; lia).
  rewrite El.
  assert (En : (jdn - 1937808 -! 1) /! 10631 = (jdn - 1937809) / 10631).
  { unwrap. rewrite Z.quot_div_nonneg by lia. f_equal. lia. }
  rewrite En.
  set (n := (jdn - 1937809) / 10631).
  assert (Hn : 1 <= n <= 2 ^ 50 /\ 0 <= jdn - 1937809 - 10631 * n < 10631)
    by (unfold n; int_bounds).
  clearbody n.
  assert (El2 : jdn - 1937808 -! 10631 *! n +! 354 = jdn - 1937809 - 10631 * n + 355)
    by (unwrap; lia).
  rewrite El2.
  exists n, (jdn - 1937809 - 10631 * n + 355).
  split; [ lia | ]. split; [ lia | ].
  pose proof (islamicCycleDate_correct (jdn - 1937809 - 10631 * n + 355)) as Hc.
  destruct (islamicCycleDate _) as [[j im] id].
  destruct Hc as (Hjr & _); [ lia | ].
  f_equal. f_equal. unwrap. lia.
Qed.

(** X6: for every input whose day number is at least 1948440 the date of
    islamicCivilFromGregorian is a date of the tabular calendar: a year
    from 1 on, a month from 1 to 12 and a day within the month, the odd
    months having 30 days, the even ones 29, and the twelfth 30 in the 11
    leap years of the 30-year cycle. *)
Theorem islamicCivil_valid_date (y m d : Z) :
  1948440 <= gregorianToJDN y m d ->
  let '(iy, im, id) := islamicCivilFromGregorian y m d in
  validIslamicDate iy im id = true.
Proof.
  intros Hj. destruct (islamicCivil_reduction y m d Hj) as (n & l & Hn & Hl & ->).
  pose proof (all_from_spec _ _ _ islamicCycleDate_valid_checked l) as H.
  unfold islamicCycleDate_valid in H.
  rewrite islamicCycleDate_exact by assumption.
  destruct (islamicCycleDate_Z l) as [[j im] id].
  rewrite Z2Nat.id in H by lia. specialize (H ltac:(lia)).
  unfold validIslamicDate, islamicDaysIn in *.
  rewrite islamicLeap_cycle.
  rewrite !andb_true_iff, !Z.leb_le in *. lia.
Qed.

Lemma islamicCivil_valid_date_witness :
  1948440 <= gregorianToJDN 2025 9 9 /\
  islamicCivilFromGregorian 2025 9 9 = (1447, 3, 16) /\
  validIslamicDate 1447 3 16 = true.
Proof.
  assert (H : 1948440 <= gregorianToJDN 2025 9 9) by (vm_compute; discriminate).
  split; [ exact H | split; [ reflexivity | ] ].
  exact (islamicCivil_valid_date 2025 9 9 H).
Defined.

(** Midnight UTC of the date of a time value. *)
Lemma Date_of_time (t : Time) :
  Date (Year t) (Month t) (Day t) = mkTime (86400 * localDays t) 0 0.
Proof.
  unfold Date, Year, Month, Day.
  pose proof (civilFromDays_spec (localDays t)) as H.
  destruct (civilFromDays (localDays t)) as [[y m] d]. cbn [fst snd].
  destruct H as [Hv Hback].
  destruct (validDate_bounds _ _ _ Hv) as (Hm & _).
  assert (E1 : (m - 1) / 12 = 0) by (Z.to_euclidean_division_equations; lia).
  assert (E2 : (m - 1) mod 12 + 1 = m) by (Z.to_euclidean_division_equations; lia).
  cbv zeta. rewrite E1, E2, Z.add_0_r, Hback. reflexivity.
Qed.

Lemma localDays_midnight (z : Z) : localDays (mkTime (86400 * z) 0 0) = z.
Proof.
  unfold localDays. cbn [unixSec zoneOffset]. rewrite Z.add_0_r.
  rewrite Z.mul_comm. apply Z.div_mul. lia.
Qed.

Lemma secOfDay_midnight (z : Z) : secOfDay (mkTime (86400 * z) 0 0) = 0.
Proof.
  unfold secOfDay. cbn [unixSec zoneOffset]. rewrite Z.add_0_r.
  rewrite Z.mul_comm. apply Z.mod_mul. lia.
Qed.

(** X7: whatever the time of day and the zone of the input, the style
    rfc3339 renders the iso-date rendering of the same input followed by
    midnight UTC. *)
Theorem rfc3339_is_iso_date_at_midnight (cal : string) (t : Time) :
  FormatRequestDate "rfc3339" cal t
  = (FormatRequestDate "iso-date" cal t ++ "T00:00:00Z")%string.
Proof.
  unfold FormatRequestDate. cbn [String.eqb Ascii.eqb Bool.eqb].
  rewrite Date_of_time. unfold formatRFC3339, formatISODate, Year, Month, Day.
  rewrite secOfDay_midnight, localDays_midnight. cbn [zoneOffset].
  rewrite !string_app_assoc. reflexivity.
Qed.

(** X8: for a time value within 2^62 seconds of 1970 and a zone offset
    within 2^31 seconds, where the day count of the model is the one of
    Go's 64-bit counters, the style unix renders 86400 times the local day
    number of the input: the first second of the local calendar day read
    as UTC, which is never after the local clock time and less than a day
    before it, and which fits Go's int. *)
Theorem unix_is_day_start (cal : string) (t : Time) :
  - 2 ^ 62 <= unixSec t <= 2 ^ 62 ->
  - 2 ^ 31 <= zoneOffset t <= 2 ^ 31 ->
  exists u,
    FormatRequestDate "unix" cal t = itoa u /\
    u = 86400 * localDays t /\
    u <= unixSec t + zoneOffset t < u + 86400 /\
    GoInt.in_range u.
Proof.
  intros Hs Hz.
  exists (86400 * localDays t). split; [ | split; [ reflexivity | split ] ].
  - unfold FormatRequestDate. cbn [String.eqb Ascii.eqb Bool.eqb].
    rewrite Date_of_time. reflexivity.
  - unfold localDays. Z.to_euclidean_division_equations; lia.
  - unfold GoInt.in_range, GoInt.min_int, GoInt.max_int, localDays.
    Z.to_euclidean_division_equations; lia.
Qed.

Lemma unix_is_day_start_witness :
  - 2 ^ 62 <= unixSec sampleTime <= 2 ^ 62 /\
  - 2 ^ 31 <= zoneOffset sampleTime <= 2 ^ 31 /\
  exists u,
    FormatRequestDate "unix" "gregorian" sampleTime = itoa u /\
    u = 86400 * localDays sampleTime /\
    u <= unixSec sampleTime + zoneOffset sampleTime < u + 86400 /\
    GoInt.in_range u.
Proof.
  assert (Hs : - 2 ^ 62 <= unixSec sampleTime <= 2 ^ 62) by (cbn [unixSec sampleTime]; lia).
  assert (Hz : - 2 ^ 31 <= zoneOffset sampleTime <= 2 ^ 31)
    by (cbn [zoneOffset sampleTime]; lia).
  split; [ exact Hs | split; [ exact Hz | ] ].
  exact (unix_is_day_start "gregorian" sampleTime Hs Hz).
Defined.

(** ** The country patterns *)

Import Vies.

Lemma allChars_app (f : ascii -> bool) (a b : string) :
  allChars f (a ++ b) = allChars f a && allChars f b.
Proof.
  induction a as [|c a IH]; simpl; [ reflexivity | rewrite IH, andb_assoc; reflexivity ].
Qed.

Lemma allChars_weaken (f g : ascii -> bool) (s : string) :
  (forall c, f c = true -> g c = true) -> allChars f s = true -> allChars g s = true.
Proof.
  intros Hfg. induction s as [|c s IH]; simpl; [ reflexivity | ].
  rewrite !andb_true_iff. intros [Hc Hs]. split; [ apply Hfg, Hc | apply IH, Hs ].
Qed.

Lemma stripPrefix_app (p s rest : string) :
  stripPrefix p s = Some rest <-> s = (p ++ rest)%string.
Proof.
  revert s. induction p as [|a p IH]; intros s; simpl.
  - split; [ intros [= ->]; reflexivity | intros ->; reflexivity ].
  - destruct s as [|b s]; [ split; discriminate | ].
    destruct (Ascii.eqb_spec a b) as [-> | Hne].
    + rewrite IH. split; [ intros ->; reflexivity | intros [= ->]; reflexivity ].
    + split; [ discriminate | intros [= <- _]; contradiction ].
Qed.

Lemma HasPrefix_app (s p : string) :
  HasPrefix s p = true <-> exists rest, s = (p ++ rest)%string.
Proof.
  unfold HasPrefix. destruct (stripPrefix p s) as [rest|] eqn:E.
  - apply stripPrefix_app in E. split; [ intros _; exists rest; exact E | reflexivity ].
  - split; [ discriminate | intros [rest Hr] ].
    apply stripPrefix_app in Hr. congruence.
Qed.

Lemma charIn_allChars (l : string) : allChars (fun c => charIn c l) l = true.
Proof.
  assert (G : forall l' f, (forall c, charIn c l' = true -> f c = true) -> allChars f l' = true).
  { induction l' as [|a l' IH]; intros f Hf; simpl; [ reflexivity | ].
    rewrite andb_true_iff. split.
    - apply Hf. simpl. rewrite Ascii.eqb_refl. reflexivity.
    - apply IH. intros c Hc. apply Hf. simpl. rewrite Hc. apply orb_true_r. }
  apply G. auto.
Qed.

(** What one match of a pattern at the start of a text consumes. *)
Definition Consumes (lo hi : nat) (f : ascii -> bool) (s rest : string) : Prop :=
  exists pre, s = (pre ++ rest)%string /\
              (lo <= String.length pre <= hi)%nat /\ allChars f pre = true.

Lemma atMost_sound (step : string -> list string) (a b : nat) (f : ascii -> bool) :
  (forall s rest, In rest (step s) -> Consumes a b f s rest) ->
  forall extra s rest, In rest (atMost step extra s) -> Consumes 0 (extra * b) f s rest.
Proof.
  intros Hstep. induction extra as [|e IH]; intros s rest Hin; simpl in Hin.
  - destruct Hin as [<- | []]. exists EmptyString. simpl. repeat split; lia.
  - destruct Hin as [<- | Hin]; [ exists EmptyString; simpl; repeat split; lia | ].
    apply in_flat_map in Hin as (mid & Hmid & Hrest).
    destruct (Hstep _ _ Hmid) as (p1 & -> & Hl1 & Hc1).
    destruct (IH _ _ Hrest) as (p2 & -> & Hl2 & Hc2).
    exists (p1 ++ p2)%string. rewrite string_app_assoc, string_length_app, allChars_app, Hc1, Hc2.
    repeat split; lia.
Qed.

Lemma exactlyThen_sound (step : string -> list string) (a b : nat) (f : ascii -> bool) :
  (forall s rest, In rest (step s) -> Consumes a b f s rest) ->
  forall n extra s rest, In rest (exactlyThen step n extra s) ->
                         Consumes (n * a) ((n + extra) * b) f s rest.
Proof.
  intros Hstep. induction n as [|k IH]; intros extra s rest Hin; simpl in Hin.
  - apply (atMost_sound step a b f Hstep) in Hin. exact Hin.
  - apply in_flat_map in Hin as (mid & Hmid & Hrest).
    destruct (Hstep _ _ Hmid) as (p1 & -> & Hl1 & Hc1).
    destruct (IH _ _ _ Hrest) as (p2 & -> & Hl2 & Hc2).
    exists (p1 ++ p2)%string. rewrite string_app_assoc, string_length_app, allChars_app, Hc1, Hc2.
    repeat split; lia.
Qed.

Lemma matchPrefix_sound (r : regex) :
  forall s rest, In rest (matchPrefix r s) -> Consumes (minLen r) (maxLen r) (allowed r) s rest.
Proof.
  induction r as [l | ranges | r1 IH1 r2 IH2 | r1 IH1 r2 IH2 | r IH lo hi];
    intros s rest Hin; simpl in Hin.
  - destruct (stripPrefix l s) as [rest'|] eqn:E; [ | contradiction ].
    destruct Hin as [<- | []]. apply stripPrefix_app in E. subst s.
    exists l. simpl. repeat split; try lia. apply charIn_allChars.
  - destruct s as [|c s']; [ contradiction | ].
    destruct (inClass c ranges) eqn:E; [ | contradiction ].
    destruct Hin as [<- | []]. exists (String c EmptyString). simpl.
    rewrite E. repeat split; lia.
  - apply in_flat_map in Hin as (mid & Hmid & Hrest).
    destruct (IH1 _ _ Hmid) as (p1 & -> & Hl1 & Hc1).
    destruct (IH2 _ _ Hrest) as (p2 & -> & Hl2 & Hc2).
    exists (p1 ++ p2)%string. rewrite string_app_assoc, string_length_app, allChars_app.
    simpl. repeat split; try lia.
    rewrite andb_true_iff. split.
    + apply (allChars_weaken (allowed r1)); [ intros c Hc; rewrite Hc; reflexivity | exact Hc1 ].
    + apply (allChars_weaken (allowed r2)); [ intros c Hc; rewrite Hc; apply orb_true_r | exact Hc2 ].
  - apply in_app_or in Hin. destruct Hin as [Hin | Hin].
    + destruct (IH1 _ _ Hin) as (p & -> & Hl & Hc). exists p. simpl. repeat split; try lia.
      apply (allChars_weaken (allowed r1)); [ intros c Hc'; rewrite Hc'; reflexivity | exact Hc ].
    + destruct (IH2 _ _ Hin) as (p & -> & Hl & Hc). exists p. simpl. repeat split; try lia.
      apply (allChars_weaken (allowed r2)); [ intros c Hc'; rewrite Hc'; apply orb_true_r | exact Hc ].
  - apply (exactlyThen_sound _ _ _ _ IH) in Hin. exact Hin.
Qed.

(** Every match starts with the literal prefix of the pattern. *)
Lemma matchPrefix_litPrefix (r : regex) :
  forall s rest, In rest (matchPrefix r s) -> HasPrefix s (litPrefix r) = true.
Proof.
  induction r as [l | ranges | r1 IH1 r2 IH2 | r1 IH1 r2 IH2 | r IH lo hi];
    intros s rest Hin; simpl in *; try reflexivity.
  - unfold HasPrefix. destruct (stripPrefix l s); [ reflexivity | contradiction ].
  - apply in_flat_map in Hin as (mid & Hmid & _). exact (IH1 _ _ Hmid).
Qed.

Lemma MatchString_In (r : regex) (s : string) :
  MatchString r s = true <-> In EmptyString (matchPrefix r s).
Proof.
  unfold MatchString. rewrite existsb_exists. split.
  - intros (x & Hin & Hx). apply String.eqb_eq in Hx. subst x. exact Hin.
  - intros Hin. exists EmptyString. split; [ exact Hin | reflexivity ].
Qed.

Lemma MatchString_sound (r : regex) (s : string) :
  MatchString r s = true ->
  (minLen r <= String.length s <= maxLen r)%nat /\
  allChars (allowed r) s = true /\ HasPrefix s (litPrefix r) = true.
Proof.
  rewrite MatchString_In. intros Hin.
  destruct (matchPrefix_sound r _ _ Hin) as (pre & E & Hl & Hc).
  rewrite string_app_nil_r in E. subst pre.
  repeat split; try lia; try assumption.
  exact (matchPrefix_litPrefix r _ _ Hin).
Qed.

Lemma table_coherent : forallb entryCoherent countryValidators = true.
Proof. vm_compute. reflexivity. Qed.

Lemma lookupIn_In (table : list (string * CountryValidator)) (code : string) (v : CountryValidator) :
  lookupIn table code = Some v -> In (code, v) table.
Proof.
  induction table as [|[k w] rest IH]; simpl; [ discriminate | ].
  destruct (String.eqb_spec k code) as [-> | Hne].
  - intros [= ->]. left. reflexivity.
  - intros H. right. apply IH, H.
Qed.

Lemma lookup_coherent (code : string) (v : CountryValidator) :
  lookup code = Some v -> entryCoherent (code, v) = true.
Proof.
  intros H. apply lookupIn_In in H.
  exact (proj1 (forallb_forall _ _) table_coherent _ H).
Qed.

Lemma in_allAscii (c : ascii) : In c allAscii.
Proof.
  unfold allAscii. rewrite <- (ascii_nat_embedding c).
  apply in_map, in_seq. pose proof (nat_ascii_bounded c). lia.
Qed.

Lemma sliceTo_app (p x : string) : sliceTo (String.length p) (p ++ x) = p.
Proof. induction p as [|c p IH]; simpl; [ destruct x; reflexivity | rewrite IH; reflexivity ]. Qed.

Lemma sliceFrom_app (p x : string) : sliceFrom (String.length p) (p ++ x) = x.
Proof. induction p as [|c p IH]; simpl; [ destruct x; reflexivity | exact IH ]. Qed.

Lemma sliceTo_sliceFrom (n : nat) (s : string) : (sliceTo n s ++ sliceFrom n s)%string = s.
Proof.
  revert s. induction n as [|k IH]; intros s; [ destruct s; reflexivity | ].
  destruct s as [|c s]; simpl; [ reflexivity | rewrite IH; reflexivity ].
Qed.

Lemma HasPrefix_sliceTo (s p : string) :
  HasPrefix s p = (sliceTo (String.length p) s =? p)%string.
Proof.
  destruct (String.eqb_spec (sliceTo (String.length p) s) p) as [E | Hne].
  - apply HasPrefix_app. exists (sliceFrom (String.length p) s).
    pose proof (sliceTo_sliceFrom (String.length p) s) as H.
    rewrite E in H. symmetry. exact H.
  - destruct (HasPrefix s p) eqn:H; [ | reflexivity ].
    apply HasPrefix_app in H as [rest ->]. rewrite sliceTo_app in Hne. contradiction.
Qed.

(** What a match of the pattern of a table entry says about the text. *)
Lemma lookup_match_facts (code : string) (v : CountryValidator) (s : string) :
  lookup code = Some v ->
  MatchString (Pattern v) s = true ->
  Code v = code /\ sliceTo 2 s = code /\
  (MinLength v <= len s <= MaxLength v /\ 4 <= MinLength v /\ MaxLength v <= 14) /\
  allChars isUpperOrDigit s = true.
Proof.
  intros Hl Hm. pose proof (lookup_coherent _ _ Hl) as Hc.
  unfold entryCoherent in Hc.
  rewrite !andb_true_iff, !Z.leb_le, String.eqb_eq, Nat.eqb_eq, forallb_forall in Hc.
  destruct Hc as (((((((Hcode & Hlen) & Hpre) & Hmin4) & Hmax14) & Hmin) & Hmax) & Hchars).
  destruct (MatchString_sound _ _ Hm) as (Hlens & Hallowed & Hlit).
  split; [ exact Hcode | ]. split; [ | split ].
  - apply HasPrefix_app in Hlit as [r1 ->]. apply HasPrefix_app in Hpre as [r2 ->].
    rewrite string_app_assoc. rewrite <- Hlen. apply sliceTo_app.
  - unfold len. lia.
  - apply (allChars_weaken (allowed (Pattern v))); [ | exact Hallowed ].
    intros c Hc. specialize (Hchars c (in_allAscii c)). rewrite Hc in Hchars. exact Hchars.
Qed.

(** X9: every text that the pattern of a country matches starts with the
    code of that country, has a length within the limits of its entry and
    consists of the letters A..Z and the digits only; so the length test of
    ValidateFormat never rejects a number that the pattern accepts. *)
Theorem pattern_within_limits (code : string) (v : CountryValidator) (s : string) :
  lookup code = Some v ->
  MatchString (Pattern v) s = true ->
  Code v = code /\ sliceTo 2 s = code /\
  (len s <? MinLength v) || (len s >? MaxLength v) = false /\
  allChars isUpperOrDigit s = true.
Proof.
  intros Hl Hm.
  destruct (lookup_match_facts code v s Hl Hm) as (Hcode & Hpre & (Hlen & _) & Hchars).
  repeat split; try assumption.
  rewrite orb_false_iff, Z.gtb_ltb, !Z.ltb_ge. lia.
Qed.

Lemma pattern_within_limits_witness :
  lookup "DE" <> None /\
  (forall v, lookup "DE" = Some v ->
     MatchString (Pattern v) "DE123456789" = true /\
     sliceTo 2 "DE123456789" = "DE"%string).
Proof.
  split; [ discriminate | ].
  intros v Hv.
  assert (Hm : MatchString (Pattern v) "DE123456789" = true)
    by (vm_compute in Hv; injection Hv as <-; reflexivity).
  split; [ exact Hm | ].
  exact (proj1 (proj2 (pattern_within_limits "DE" v "DE123456789" Hv Hm))).
Defined.

(** ** Validation and parsing of VAT numbers *)

Lemma ValidateFormat_normalized (s : string) :
  ValidateFormat s =
  let v0 := ToUpper (removeSpaces s) in
  if len v0 <? 3 then
    Some (mkError ErrInvalidFormat "VAT number too short (minimum 3 characters)" v0)
  else
    let n := normalize s in
    match lookup (sliceTo 2 n) with
    | None =>
        Some (mkError ErrUnsupportedCountry
                ("Unsupported country code: " ++ sliceTo 2 n) n)
    | Some validator =>
        if (len n <? MinLength validator) || (len n >? MaxLength validator) then
          Some (mkError ErrInvalidFormat
                  ("Invalid length for " ++ Name validator ++ " VAT number. Expected: "
                     ++ Description validator) n)
        else if negb (MatchString (Pattern validator) n) then
          Some (mkError ErrInvalidFormat
                  ("Invalid format for " ++ Name validator ++ " VAT number. Expected: "
                     ++ Description validator) n)
        else None
    end.
Proof.
  unfold ValidateFormat, normalize. cbv zeta.
  destruct (len _ <? 3); [ reflexivity | ].
  destruct (sliceTo 2 _ =? "GR")%string; reflexivity.
Qed.

Lemma ParseVATNumber_normalized (s : string) :
  ParseVATNumber s =
  match ValidateFormat s with
  | Some err => (EmptyString, EmptyString, Some err)
  | None =>
      let n := normalize s in
      let number := sliceFrom 2 n in
      (sliceTo 2 n,
       if (sliceTo 2 n =? "AT")%string then
         if HasPrefix number "U" then sliceFrom 1 number else number
       else number,
       None)
  end.
Proof.
  unfold ParseVATNumber, normalize. destruct (ValidateFormat s); [ reflexivity | ].
  cbv zeta. rewrite HasPrefix_sliceTo. reflexivity.
Qed.

Lemma ToUpper_length (s : string) : String.length (ToUpper s) = String.length s.
Proof. induction s as [|c s IH]; simpl; [ reflexivity | rewrite IH; reflexivity ]. Qed.

Lemma len_normalize (s : string) : len (normalize s) = len (ToUpper (removeSpaces s)).
Proof.
  unfold normalize. destruct (String.eqb_spec (sliceTo 2 (ToUpper (removeSpaces s))) "GR") as [E | _];
    [ | reflexivity ].
  pose proof (sliceTo_sliceFrom 2 (ToUpper (removeSpaces s))) as H.
  rewrite E in H. rewrite <- H at 2. unfold len. rewrite !string_length_app. reflexivity.
Qed.

Lemma normalize_not_GR (s : string) : sliceTo 2 (normalize s) <> "GR"%string.
Proof.
  unfold normalize. destruct (String.eqb_spec (sliceTo 2 (ToUpper (removeSpaces s))) "GR") as [E | Hne];
    [ simpl; discriminate | exact Hne ].
Qed.

(** An accepted number matches the pattern of the entry of its first two
    characters, and conversely. *)
Lemma ValidateFormat_None (s : string) :
  ValidateFormat s = None <->
  exists v, lookup (sliceTo 2 (normalize s)) = Some v /\
            MatchString (Pattern v) (normalize s) = true.
Proof.
  rewrite ValidateFormat_normalized. cbv zeta. split.
  - destruct (len _ <? 3); [ discriminate | ].
    destruct (lookup _) as [v|]; [ | discriminate ].
    destruct (_ || _); [ discriminate | ].
    destruct (MatchString _ _) eqn:M; [ | discriminate ].
    intros _. exists v. split; reflexivity || assumption.
  - intros (v & Hl & Hm).
    destruct (lookup_match_facts _ _ _ Hl Hm) as (_ & _ & (Hlen & Hmin & _) & _).
    rewrite <- len_normalize.
    destruct (Z.ltb_spec (len (normalize s)) 3); [ lia | ].
    rewrite Hl, Hm.
    destruct (Z.ltb_spec (len (normalize s)) (MinLength v)); [ lia | ].
    rewrite Z.gtb_ltb.
    destruct (Z.ltb_spec (MaxLength v) (len (normalize s))); [ lia | ].
    reflexivity.
Qed.

(** X10: a VAT number is accepted exactly when, cleaned and with the Greek
    alias replaced, it matches the pattern of some country of the table. *)
Theorem ValidateFormat_accepts_iff_pattern (s : string) :
  isASCII s = true ->
  (ValidateFormat s = None <->
   exists code v, lookup code = Some v /\ MatchString (Pattern v) (normalize s) = true).
Proof.
  intros _. rewrite ValidateFormat_None. split.
  - intros (v & Hl & Hm). exists (sliceTo 2 (normalize s)), v. split; assumption.
  - intros (code & v & Hl & Hm). exists v. split; [ | exact Hm ].
    destruct (lookup_match_facts _ _ _ Hl Hm) as (_ & -> & _). exact Hl.
Qed.

Lemma ValidateFormat_accepts_iff_pattern_witness :
  isASCII "de 266 201 128" = true /\
  normalize "de 266 201 128" = "DE266201128"%string /\
  ValidateFormat "de 266 201 128" = None.
Proof.
  split; [ reflexivity | split; [ reflexivity | ] ].
  apply (proj2 (ValidateFormat_accepts_iff_pattern "de 266 201 128" eq_refl)).
  exists "DE"%string. eexists. split; reflexivity.
Defined.

(** The Austrian pattern: the letter U and eight digits after the code. *)
Lemma AT_match (n : string) :
  MatchString (Seq (Lit "ATU") (digitsRep 8 8)) n = true ->
  exists num, n = ("ATU" ++ num)%string /\ len num = 8 /\ allChars isDigit num = true.
Proof.
  rewrite MatchString_In. cbn [matchPrefix]. intros Hin.
  apply in_flat_map in Hin as (mid & Hmid & Hrest).
  destruct (stripPrefix "ATU" n) as [rest|] eqn:E; [ | contradiction ].
  destruct Hmid as [<- | []]. apply stripPrefix_app in E.
  apply (matchPrefix_sound (digitsRep 8 8)) in Hrest as (pre & Hpre & Hlen & Hc).
  rewrite string_app_nil_r in Hpre. subst pre. exists rest.
  split; [ exact E | ]. split; [ unfold len; simpl in Hlen; lia | exact Hc ].
Qed.

Lemma isDigit_upperOrDigit (c : ascii) : isDigit c = true -> isUpperOrDigit c = true.
Proof.
  unfold isDigit, isUpperOrDigit, inClass. cbn [existsb].
  intros H. rewrite orb_false_r in H. rewrite H. apply orb_true_r.
Qed.



(** X12: for Austria the number handed to the service is exactly the eight
    digits: the letter U of the national format is always removed. *)
Theorem ParseVATNumber_austria (s num : string) :
  isASCII s = true ->
  ParseVATNumber s = ("AT"%string, num, None) ->
  len num = 8 /\ allChars isDigit num = true /\ normalize s = ("ATU" ++ num)%string.
Proof.
  intros _. rewrite ParseVATNumber_normalized.
  destruct (ValidateFormat s) eqn:V; [ discriminate | ].
  apply ValidateFormat_None in V as (v & Hl & Hm).
  cbv zeta. intros H.
  apply pair_equal_spec in H as [H _]. apply pair_equal_spec in H as [Hcc Hnum].
  rewrite Hcc in Hl, Hnum. vm_compute in Hl. injection Hl as <-. cbn [Pattern] in Hm.
  apply AT_match in Hm as (digits8 & Hn & Hlen & Hd).
  rewrite Hn in Hnum |- *. cbn in Hnum. subst num. repeat split; assumption.
Qed.

Lemma ParseVATNumber_austria_witness :
  isASCII "ATU12345678" = true /\
  ParseVATNumber "ATU12345678" = ("AT", "12345678", None)%string /\
  len "12345678" = 8.
Proof.
  assert (Hp : ParseVATNumber "ATU12345678" = ("AT", "12345678", None)%string) by reflexivity.
  split; [ reflexivity | split; [ exact Hp | ] ].
  exact (proj1 (ParseVATNumber_austria "ATU12345678" "12345678" eq_refl Hp)).
Defined.

Lemma ValidateFormat_same_clean (s1 s2 : string) :
  ToUpper (removeSpaces s1) = ToUpper (removeSpaces s2) ->
  ValidateFormat s1 = ValidateFormat s2 /\ ParseVATNumber s1 = ParseVATNumber s2.
Proof.
  intros E.
  assert (V : ValidateFormat s1 = ValidateFormat s2) by (unfold ValidateFormat; rewrite E; reflexivity).
  split; [ exact V | ].
  unfold ParseVATNumber. rewrite V, E. reflexivity.
Qed.

Lemma upperChar_space (c : ascii) : Ascii.eqb (upperChar c) " " = Ascii.eqb c " ".
Proof. destruct c as [[] [] [] [] [] [] [] []]; reflexivity. Qed.

Lemma upperChar_idem (c : ascii) : upperChar (upperChar c) = upperChar c.
Proof. destruct c as [[] [] [] [] [] [] [] []]; reflexivity. Qed.

Lemma removeSpaces_ToUpper (s : string) : removeSpaces (ToUpper s) = ToUpper (removeSpaces s).
Proof.
  induction s as [|c s IH]; simpl; [ reflexivity | ].
  rewrite upperChar_space. destruct (Ascii.eqb c " "); simpl; rewrite IH; reflexivity.
Qed.

Lemma removeSpaces_idem (s : string) : removeSpaces (removeSpaces s) = removeSpaces s.
Proof.
  induction s as [|c s IH]; simpl; [ reflexivity | ].
  destruct (Ascii.eqb c " ") eqn:E; simpl; [ exact IH | rewrite E, IH; reflexivity ].
Qed.

Lemma ToUpper_idem (s : string) : ToUpper (ToUpper s) = ToUpper s.
Proof.
  induction s as [|c s IH]; simpl; [ reflexivity | rewrite upperChar_idem, IH; reflexivity ].
Qed.

Lemma removeSpaces_app (a b : string) :
  removeSpaces (a ++ b) = (removeSpaces a ++ removeSpaces b)%string.
Proof.
  induction a as [|c a IH]; simpl; [ reflexivity | ].
  destruct (Ascii.eqb c " "); simpl; rewrite IH; reflexivity.
Qed.

Lemma ToUpper_app (a b : string) : ToUpper (a ++ b) = (ToUpper a ++ ToUpper b)%string.
Proof. induction a as [|c a IH]; simpl; [ reflexivity | rewrite IH; reflexivity ]. Qed.

(** X13: spaces and the case of letters never matter: a number and its
    cleaned form (spaces removed, upper case) are validated and parsed to
    the same result, error included. *)
Theorem ParseVATNumber_cleaning (s : string) :
  isASCII s = true ->
  ValidateFormat (ToUpper (removeSpaces s)) = ValidateFormat s /\
  ParseVATNumber (ToUpper (removeSpaces s)) = ParseVATNumber s.
Proof.
  intros _. apply ValidateFormat_same_clean.
  rewrite removeSpaces_ToUpper, removeSpaces_idem, ToUpper_idem. reflexivity.
Qed.

Lemma ParseVATNumber_cleaning_witness :
  isASCII " nl 123456789 b01" = true /\
  ToUpper (removeSpaces " nl 123456789 b01") = "NL123456789B01"%string /\
  ParseVATNumber "NL123456789B01" = ParseVATNumber " nl 123456789 b01".
Proof.
  split; [ reflexivity | split; [ reflexivity | ] ].
  exact (proj2 (ParseVATNumber_cleaning " nl 123456789 b01" eq_refl)).
Defined.

(** X14: GR is a full alias of EL: a number given with the prefix GR is
    validated and parsed exactly as the same number with the prefix EL,
    and the code returned is EL. *)
Theorem greek_alias (rest : string) :
  isASCII rest = true ->
  removeSpaces rest <> EmptyString ->
  ValidateFormat ("GR" ++ rest) = ValidateFormat ("EL" ++ rest) /\
  ParseVATNumber ("GR" ++ rest) = ParseVATNumber ("EL" ++ rest) /\
  fst (fst (ParseVATNumber ("GR" ++ rest))) <> "GR"%string.
Proof.
  intros _ Hne.
  set (r := ToUpper (removeSpaces rest)).
  assert (Hr : (1 <= String.length r)%nat).
  { unfold r. rewrite ToUpper_length. destruct (removeSpaces rest); [ contradiction | simpl; lia ]. }
  assert (Cg : ToUpper (removeSpaces ("GR" ++ rest)) = ("GR" ++ r)%string) by reflexivity.
  assert (Ce : ToUpper (removeSpaces ("EL" ++ rest)) = ("EL" ++ r)%string) by reflexivity.
  assert (Ng : normalize ("GR" ++ rest) = ("EL" ++ r)%string).
  { unfold normalize. rewrite Cg. reflexivity. }
  assert (Ne : normalize ("EL" ++ rest) = ("EL" ++ r)%string).
  { unfold normalize. rewrite Ce. reflexivity. }
  assert (V : ValidateFormat ("GR" ++ rest) = ValidateFormat ("EL" ++ rest)).
  { rewrite !ValidateFormat_normalized. cbv zeta. rewrite Cg, Ce, Ng, Ne.
    change (len ("GR" ++ r) <? 3) with (len (String "G" (String "R" r)) <? 3).
    change (len ("EL" ++ r) <? 3) with (len (String "E" (String "L" r)) <? 3).
    assert (Lg : (len (String "G" (String "R" r)) <? 3) = false)
      by (apply Z.ltb_ge; unfold len; simpl; lia).
    assert (Le : (len (String "E" (String "L" r)) <? 3) = false)
      by (apply Z.ltb_ge; unfold len; simpl; lia).
    rewrite Lg, Le. reflexivity. }
  split; [ exact V | ].
  assert (P : ParseVATNumber ("GR" ++ rest) = ParseVATNumber ("EL" ++ rest)).
  { rewrite !ParseVATNumber_normalized, V, Ng, Ne. reflexivity. }
  split; [ exact P | ].
  rewrite ParseVATNumber_normalized, Ng.
  destruct (ValidateFormat ("GR" ++ rest)); simpl; discriminate.
Qed.

Lemma greek_alias_witness :
  isASCII "123456789" = true /\ removeSpaces "123456789" <> EmptyString /\
  ParseVATNumber "GR123456789" = ("EL", "123456789", None)%string /\
  ParseVATNumber "GR123456789" = ParseVATNumber "EL123456789".
Proof.
  assert (Hne : removeSpaces "123456789" <> EmptyString) by discriminate.
  split; [ reflexivity | split; [ exact Hne | split; [ reflexivity | ] ] ].
  exact (proj1 (proj2 (greek_alias "123456789" eq_refl Hne))).
Defined.

(** X15: the plain error text of a rejected number of three or more
    characters: for an unknown country code two lines, the message and the
    cleaned number; for a known one a third line with the expected format
    of that country. *)
Theorem PlainFormatError_of_ValidateFormat (s : string) (e : ErrorFields) :
  isASCII s = true ->
  ValidateFormat s = Some e ->
  3 <= len (ToUpper (removeSpaces s)) ->
  match lookup (sliceTo 2 (normalize s)) with
  | None =>
      errCode e = ErrUnsupportedCountry /\
      PlainFormatError (ValidationError e)
      = ("Error: Unsupported country code: " ++ sliceTo 2 (normalize s) ++ newline
         ++ "VAT Number: " ++ normalize s ++ newline)%string
  | Some v =>
      errCode e = ErrInvalidFormat /\
      PlainFormatError (ValidationError e)
      = ("Error: " ++ errMessage e ++ newline
         ++ "VAT Number: " ++ normalize s ++ newline
         ++ "Expected Format: " ++ Description v ++ newline)%string
  end.
Proof.
  intros _ V Hlen. rewrite ValidateFormat_normalized in V. cbv zeta in V.
  destruct (Z.ltb_spec (len (ToUpper (removeSpaces s))) 3); [ lia | ].
  rewrite <- len_normalize in Hlen.
  assert (Hn : (normalize s =? EmptyString)%string = false).
  { destruct (normalize s); [ unfold len in Hlen; simpl in Hlen; lia | reflexivity ]. }
  assert (Hge : (len (normalize s) >=? 2) = true) by (rewrite Z.geb_leb; apply Z.leb_le; lia).
  destruct (lookup (sliceTo 2 (normalize s))) as [v|] eqn:Hl.
  - assert (He : errCode e = ErrInvalidFormat /\ errVATNumber e = normalize s).
    { destruct (_ || _); [ injection V as <-; split; reflexivity | ].
      destruct (negb _); [ injection V as <-; split; reflexivity | discriminate ]. }
    destruct He as [Hc Hv]. split; [ exact Hc | ].
    unfold PlainFormatError, GetCountryInfo. rewrite Hc, Hv, Hn, Hge, Hl.
    cbn [negb]. rewrite String.eqb_refl, !string_app_assoc. reflexivity.
  - injection V as <-. split; [ reflexivity | ].
    unfold PlainFormatError. cbn [errCode errMessage errVATNumber].
    rewrite Hn. cbn [negb].
    change (ErrUnsupportedCountry =? ErrInvalidFormat)%string with false.
    rewrite !string_app_assoc, string_app_nil_r. reflexivity.
Qed.

Lemma PlainFormatError_of_ValidateFormat_witness :
  isASCII "DE12" = true /\ ValidateFormat "DE12" <> None /\
  3 <= len (ToUpper (removeSpaces "DE12")) /\
  forall e, ValidateFormat "DE12" = Some e ->
    PlainFormatError (ValidationError e)
    = ("Error: Invalid length for Germany VAT number. Expected: DE + 9 digits" ++ newline
       ++ "VAT Number: DE12" ++ newline ++ "Expected Format: DE + 9 digits" ++ newline)%string.
Proof.
  assert (Hl : 3 <= len (ToUpper (removeSpaces "DE12"))) by (vm_compute; discriminate).
  split; [ reflexivity | split; [ discriminate | split; [ exact Hl | ] ] ].
  intros e He.
  pose proof (PlainFormatError_of_ValidateFormat "DE12" e eq_refl He Hl) as H.
  vm_compute in He. injection He as <-. exact (proj2 H).
Defined.

(** ** Option resolution *)

(** X16: the date style and the calendar handed to the rendering come, in
    this order, from a non-empty flag, from a non-empty environment
    variable when the flag is absent, from a non-empty value of the
    configuration file, and from the built-in default; an empty flag
    argument hides the environment variable; the result is never empty. *)
Theorem options_precedence (getenv : string -> string) (args : string -> option string)
  (cfg : Main.config) :
  Main.resolvedDateStyle getenv args cfg
  = optionByPrecedence (args "date-style"%string) (getenv "VIESQUERY_DATE_STYLE"%string)
      (Main.DateStyle cfg) "gce-verbose" /\
  Main.resolvedCalendar getenv args cfg
  = optionByPrecedence (args "calendar"%string) (getenv "VIESQUERY_CALENDAR"%string)
      (Main.Calendar cfg) "gregorian" /\
  Main.resolvedDateStyle getenv args cfg <> EmptyString /\
  Main.resolvedCalendar getenv args cfg <> EmptyString.
Proof.
  assert (G : forall flag env c builtin, builtin <> EmptyString ->
    let f := match flag with Some v => v
             | None => if negb (env =? EmptyString)%string then env else EmptyString end in
    let r := if negb (f =? EmptyString)%string then f
             else if negb (c =? EmptyString)%string then c else builtin in
    r = optionByPrecedence flag env c builtin /\ r <> EmptyString).
  { intros flag env c builtin Hb. unfold optionByPrecedence. cbv zeta.
    destruct flag as [v|].
    - destruct (String.eqb_spec v EmptyString), (String.eqb_spec c EmptyString);
        cbn [negb]; split; try reflexivity; assumption.
    - destruct (String.eqb_spec env EmptyString) as [-> | He]; cbn [negb].
      + cbn. destruct (String.eqb_spec c EmptyString); cbn [negb]; split; try reflexivity; assumption.
      + destruct (String.eqb_spec env EmptyString); [ contradiction | ].
        cbn [negb]. split; [ reflexivity | assumption ]. }
  pose proof (G (args "date-style"%string) (getenv "VIESQUERY_DATE_STYLE"%string)
                (Main.DateStyle cfg) "gce-verbose"%string ltac:(discriminate)) as [D1 D2].
  pose proof (G (args "calendar"%string) (getenv "VIESQUERY_CALENDAR"%string)
                (Main.Calendar cfg) "gregorian"%string ltac:(discriminate)) as [C1 C2].
  repeat split; assumption.
Qed.
